(** * Glean datasource manager: configuration reconciliation

    A shallow embedding of [manage.py] (assembly of the datasource
    settings, the icon / URL-regex / suggestion-text fallback chains, the
    push path [create_datasource] and the pull path
    [fetch_datasource_config]) together with the properties stated about
    it.

    Conventions.
    - A Python [str] is a [string]; a character is a code point below 256.
    - A Python [bytes] value is a [list byte].
    - A call that may raise returns [result A]; [Err] carries the exception
      class and its message.
    - The file system, the HTTP client, the remote indexing API and the
      terminal prompt are collaborators: they are fields of a [World]
      record that the operations read. *)

From Stdlib Require Import Bool Arith NArith ZArith List String Ascii Lia.
From Stdlib Require Strings.Byte.
Import ListNotations.
Open Scope string_scope.

Set Implicit Arguments.
Set Warnings "-register-all".

(** ** Exceptions and results *)

Inductive exn_class : Type :=
| ValueError
| KeyError
| OtherException.

Record exn : Type := Exn { exn_kind : exn_class; exn_msg : string }.

Inductive result (A : Type) : Type :=
| Ok (a : A)
| Err (e : exn).

Arguments Ok {A} a.
Arguments Err {A} e.

Definition bind {A B : Type} (r : result A) (k : A -> result B) : result B :=
  match r with
  | Ok a => k a
  | Err e => Err e
  end.

Notation "x <- r ;; k" := (bind r (fun x => k))
  (at level 61, r at next level, right associativity).

Definition raise {A : Type} (k : exn_class) (msg : string) : result A :=
  Err (Exn k msg).

Definition is_ok {A : Type} (r : result A) : bool :=
  match r with Ok _ => true | Err _ => false end.

(** ** Text: the [str] methods the program uses *)

Module Text.

Definition code (c : ascii) : nat := nat_of_ascii c.

Definition in_range (lo hi : nat) (c : ascii) : bool :=
  Nat.leb lo (code c) && Nat.leb (code c) hi.

Definition is_lower (c : ascii) : bool := in_range 97 122 c.
Definition is_upper (c : ascii) : bool := in_range 65 90 c.
Definition is_digit (c : ascii) : bool := in_range 48 57 c.
Definition is_alpha (c : ascii) : bool := is_lower c || is_upper c.
Definition is_alnum (c : ascii) : bool := is_alpha c || is_digit c.

Definition is_char (x : ascii) (c : ascii) : bool := Ascii.eqb c x.

Definition one_of (l : list ascii) (c : ascii) : bool :=
  existsb (Ascii.eqb c) l.

(** [str.isspace] on one character, which is also the class [\s] of a
    [str] pattern: TAB, LF, VT, FF, CR, FS, GS, RS, US, SPACE, NEL and
    NBSP are the white-space code points below 256. *)
Definition is_space (c : ascii) : bool :=
  in_range 9 13 c || in_range 28 32 c
  || Nat.eqb (code c) 133 || Nat.eqb (code c) 160.

(** [str.lower] on one character: A-Z, and the upper-case letters of the
    Latin-1 block (U+00C0..U+00DE except the multiplication sign). *)
Definition lower_char (c : ascii) : ascii :=
  if is_upper c || (in_range 192 222 c && negb (Nat.eqb (code c) 215))
  then ascii_of_nat (code c + 32)
  else c.

Fixpoint lower (s : string) : string :=
  match s with
  | EmptyString => EmptyString
  | String c s' => String (lower_char c) (lower s')
  end.

Definition is_empty (s : string) : bool :=
  match s with EmptyString => true | String _ _ => false end.

(** Truthiness of a [str]. *)
Definition truthy (s : string) : bool := negb (is_empty s).

(** Truthiness of an [Optional[str]]. *)
Definition truthy_opt (o : option string) : bool :=
  match o with None => false | Some s => truthy s end.

(** The value of an [Optional[str]] known to be truthy. *)
Definition value (o : option string) : string :=
  match o with Some s => s | None => EmptyString end.

(** [o or default]. *)
Definition or_else (o : option string) (default : string) : string :=
  if truthy_opt o then value o else default.

Fixpoint lstrip (p : ascii -> bool) (s : string) : string :=
  match s with
  | EmptyString => EmptyString
  | String c s' => if p c then lstrip p s' else s
  end.

Fixpoint rstrip (p : ascii -> bool) (s : string) : string :=
  match s with
  | EmptyString => EmptyString
  | String c s' =>
      let r := rstrip p s' in
      if is_empty r && p c then EmptyString else String c r
  end.

(** [s.strip(chars)] and [s.strip()]. *)
Definition strip_chars (p : ascii -> bool) (s : string) : string :=
  rstrip p (lstrip p s).

Definition strip (s : string) : string := strip_chars is_space s.

Fixpoint last_char (s : string) : option ascii :=
  match s with
  | EmptyString => None
  | String c EmptyString => Some c
  | String _ s' => last_char s'
  end.

Fixpoint startswith (p s : string) : bool :=
  match p, s with
  | EmptyString, _ => true
  | String a p', String b s' => Ascii.eqb a b && startswith p' s'
  | String _ _, EmptyString => false
  end.

(** [sub in s]. *)
Fixpoint contains (sub s : string) : bool :=
  startswith sub s
  || match s with
     | EmptyString => false
     | String _ s' => contains sub s'
     end.

Fixpoint rev_string (acc s : string) : string :=
  match s with
  | EmptyString => acc
  | String c s' => rev_string (String c acc) s'
  end.

Definition endswith (suffix s : string) : bool :=
  startswith (rev_string "" suffix) (rev_string "" s).

(** [s.split(sep)] for a one-character separator: always at least one
    piece, empty pieces kept. *)
Fixpoint split_on (sep : ascii) (s : string) : list string :=
  match s with
  | EmptyString => [EmptyString]
  | String c s' =>
      if Ascii.eqb c sep then EmptyString :: split_on sep s'
      else match split_on sep s' with
           | [] => [String c EmptyString]
           | piece :: rest => String c piece :: rest
           end
  end.

Fixpoint all_chars (p : ascii -> bool) (s : string) : bool :=
  match s with
  | EmptyString => true
  | String c s' => p c && all_chars p s'
  end.

(** [re.sub("[class]", "", s)]: every character of the class removed. *)
Fixpoint re_sub_class_empty (cls : ascii -> bool) (s : string) : string :=
  match s with
  | EmptyString => EmptyString
  | String c s' =>
      if cls c then re_sub_class_empty cls s'
      else String c (re_sub_class_empty cls s')
  end.

(** [re.sub("[class]+", repl, s)]: every maximal run of characters of the
    class replaced by [repl]; [in_run] records that the previous
    character belonged to the run being replaced. *)
Fixpoint re_sub_runs (cls : ascii -> bool) (repl : string)
         (in_run : bool) (s : string) : string :=
  match s with
  | EmptyString => EmptyString
  | String c s' =>
      if cls c then
        if in_run then re_sub_runs cls repl true s'
        else repl ++ re_sub_runs cls repl true s'
      else String c (re_sub_runs cls repl false s')
  end.

Definition re_sub_class_plus (cls : ascii -> bool) (repl s : string)
  : string :=
  re_sub_runs cls repl false s.

End Text.

(** ** Regular expressions: [re.match] by derivatives *)

Module Regex.

Inductive regex : Type :=
| Void
| Eps
| Cls (p : ascii -> bool)
| Cat (r1 r2 : regex)
| Alt (r1 r2 : regex)
| Star (r : regex).

Definition Plus (r : regex) : regex := Cat r (Star r).
Definition Opt (r : regex) : regex := Alt Eps r.
Definition Chr (c : ascii) : regex := Cls (Text.is_char c).

Fixpoint Lit (s : string) : regex :=
  match s with
  | EmptyString => Eps
  | String c s' => Cat (Chr c) (Lit s')
  end.

Fixpoint AtLeast (n : nat) (r : regex) : regex :=
  match n with
  | O => Star r
  | S n' => Cat r (AtLeast n' r)
  end.

Fixpoint nullable (r : regex) : bool :=
  match r with
  | Void => false
  | Eps => true
  | Cls _ => false
  | Cat r1 r2 => nullable r1 && nullable r2
  | Alt r1 r2 => nullable r1 || nullable r2
  | Star _ => true
  end.

Fixpoint deriv (r : regex) (c : ascii) : regex :=
  match r with
  | Void => Void
  | Eps => Void
  | Cls p => if p c then Eps else Void
  | Cat r1 r2 =>
      if nullable r1
      then Alt (Cat (deriv r1 c) r2) (deriv r2 c)
      else Cat (deriv r1 c) r2
  | Alt r1 r2 => Alt (deriv r1 c) (deriv r2 c)
  | Star r1 => Cat (deriv r1 c) (Star r1)
  end.

(** The whole of [s] belongs to [r]. *)
Fixpoint fullmatch (r : regex) (s : string) : bool :=
  match s with
  | EmptyString => nullable r
  | String c s' => fullmatch (deriv r c) s'
  end.

Definition any_char (_ : ascii) : bool := true.
Definition newline : ascii := ascii_of_nat 10.

(** [re.match("^r", s)] and a pattern constraint [^r]: some prefix of
    [s] belongs to [r]. *)
Definition match_prefix (r : regex) (s : string) : bool :=
  fullmatch (Cat r (Star (Cls any_char))) s.

(** [re.match("^r$", s)]: without [re.MULTILINE] the [$] also matches
    just before a final line feed. *)
Definition match_anchored (r : regex) (s : string) : bool :=
  fullmatch (Cat r (Opt (Chr newline))) s.

(** The denotation of a regular expression. *)
Inductive lang : regex -> string -> Prop :=
| lang_eps : lang Eps ""
| lang_cls (p : ascii -> bool) (c : ascii) :
    p c = true -> lang (Cls p) (String c "")
| lang_cat (r1 r2 : regex) (s1 s2 : string) :
    lang r1 s1 -> lang r2 s2 -> lang (Cat r1 r2) (s1 ++ s2)
| lang_alt_l (r1 r2 : regex) (s : string) :
    lang r1 s -> lang (Alt r1 r2) s
| lang_alt_r (r1 r2 : regex) (s : string) :
    lang r2 s -> lang (Alt r1 r2) s
| lang_star_nil (r : regex) : lang (Star r) ""
| lang_star_cons (r : regex) (s1 s2 : string) :
    lang r s1 -> lang (Star r) s2 -> lang (Star r) (s1 ++ s2).

End Regex.

(** ** Base64: [base64.b64encode] and [base64.b64decode] *)

Module Base64.

Import Strings.Byte.

Definition alphabet : string :=
  "ABCDEFGHIJKLMNOPQRSTUVWXYZabcdefghijklmnopqrstuvwxyz0123456789+/".

Definition pad : ascii := "="%char.

(** The character of a sextet. *)
Definition table_b2a (n : N) : ascii :=
  match String.get (N.to_nat n) alphabet with
  | Some c => c
  | None => pad
  end.

(** The sextet of a character, [None] outside the alphabet. *)
Definition table_a2b (c : ascii) : option N :=
  let n := N_of_ascii c in
  if Text.is_upper c then Some (n - 65)%N
  else if Text.is_lower c then Some (n - 97 + 26)%N
  else if Text.is_digit c then Some (n - 48 + 52)%N
  else if Ascii.eqb c "+"%char then Some 62%N
  else if Ascii.eqb c "/"%char then Some 63%N
  else None.

(** A value stored into an [unsigned char]. *)
Definition to_byte (n : N) : byte :=
  match of_N (n mod 256) with
  | Some b => b
  | None => x00
  end.

Definition enc1 (a : byte) : N := N.shiftr (to_N a) 2.
Definition enc2 (a b : byte) : N :=
  N.lor (N.shiftl (N.land (to_N a) 3) 4) (N.shiftr (to_N b) 4).
Definition enc3 (b c : byte) : N :=
  N.lor (N.shiftl (N.land (to_N b) 15) 2) (N.shiftr (to_N c) 6).
Definition enc4 (c : byte) : N := N.land (to_N c) 63.

(** [base64.b64encode(content).decode("utf-8")]: three bytes give four
    characters, a shorter tail is padded with [=]. *)
Fixpoint b64encode (l : list byte) : string :=
  match l with
  | [] => ""
  | [a] =>
      String (table_b2a (enc1 a)) (String (table_b2a (enc2 a x00))
        (String pad (String pad "")))
  | [a; b] =>
      String (table_b2a (enc1 a)) (String (table_b2a (enc2 a b))
        (String (table_b2a (enc3 b x00)) (String pad "")))
  | a :: b :: c :: rest =>
      String (table_b2a (enc1 a)) (String (table_b2a (enc2 a b))
        (String (table_b2a (enc3 b c)) (String (table_b2a (enc4 c))
          (b64encode rest))))
  end.

(** The state of the decoding loop of [binascii.a2b_base64]: position in
    the current group of four, the bits left over, the count of padding
    characters seen, and the bytes produced so far (latest first). *)
Record a2b_state : Type := A2B {
  quad_pos : nat;
  leftchar : N;
  pads : nat;
  bin_data : list byte
}.

Definition a2b_init : a2b_state := A2B 0 0 0 [].

(** One iteration on a character that is not the padding character. *)
Definition a2b_data (st : a2b_state) (this_ch : N) : a2b_state :=
  match quad_pos st with
  | 0 => A2B 1 this_ch 0 (bin_data st)
  | 1 => A2B 2 (N.land this_ch 15) 0
             (to_byte (N.lor (N.shiftl (leftchar st) 2) (N.shiftr this_ch 4))
              :: bin_data st)
  | 2 => A2B 3 (N.land this_ch 3) 0
             (to_byte (N.lor (N.shiftl (leftchar st) 4) (N.shiftr this_ch 2))
              :: bin_data st)
  | _ => A2B 0 0 0
             (to_byte (N.lor (N.shiftl (leftchar st) 6) this_ch)
              :: bin_data st)
  end.

(** The loop in non-strict mode: a character outside the alphabet is
    skipped, complete padding ends the decoding, and input that stops
    inside a group is an error. *)
Fixpoint a2b_loop (st : a2b_state) (s : string) : result (list byte) :=
  match s with
  | EmptyString =>
      if Nat.eqb (quad_pos st) 0 then Ok (rev (bin_data st))
      else if Nat.eqb (quad_pos st) 1
      then raise ValueError "Invalid base64-encoded string"
      else raise ValueError "Incorrect padding"
  | String c s' =>
      if Ascii.eqb c pad then
        if Nat.leb 2 (quad_pos st) then
          if Nat.leb 4 (quad_pos st + S (pads st))
          then Ok (rev (bin_data st))
          else a2b_loop (A2B (quad_pos st) (leftchar st) (S (pads st))
                             (bin_data st)) s'
        else a2b_loop st s'
      else
        match table_a2b c with
        | None => a2b_loop st s'
        | Some this_ch => a2b_loop (a2b_data st this_ch) s'
        end
  end.

Definition is_ascii (c : ascii) : bool := Nat.ltb (Text.code c) 128.

(** [base64.b64decode(s)] of a [str]: the text is first encoded as ASCII. *)
Definition b64decode (s : string) : result (list byte) :=
  if Text.all_chars is_ascii s then a2b_loop a2b_init s
  else raise ValueError
         "string argument should contain only ASCII characters".

Definition all_bytes : list byte :=
  map to_byte (map N.of_nat (seq 0 256)).

End Base64.

(** ** Paths: the [pathlib.Path] operations used *)

Module Pathlib.

(** [rsplit_at c s] cuts [s] after the last occurrence of [c]: the first
    part keeps that occurrence and is empty when [c] does not occur. *)
Fixpoint rsplit_at (c : ascii) (s : string) : string * string :=
  match s with
  | EmptyString => (EmptyString, EmptyString)
  | String a s' =>
      let (d, n) := rsplit_at c s' in
      if Text.is_empty d then
        if Ascii.eqb a c then (String a EmptyString, n)
        else (EmptyString, String a n)
      else (String a d, n)
  end.

Fixpoint drop_last (s : string) : string :=
  match s with
  | EmptyString => EmptyString
  | String _ EmptyString => EmptyString
  | String c s' => String c (drop_last s')
  end.

Definition slash : ascii := "/"%char.
Definition dot : ascii := "."%char.

(** A path is kept as the text it was built from, without its trailing
    separators. *)
Definition Path (s : string) : string := Text.rstrip (Text.is_char slash) s.

Definition parent_prefix (p : string) : string := fst (rsplit_at slash p).

(** [p.name]: the final component. *)
Definition name (p : string) : string := snd (rsplit_at slash p).

(** [p.suffix]: from the last dot of the name, when that dot is neither
    its first nor its last character. *)
Definition suffix (p : string) : string :=
  let (d, n) := rsplit_at dot (name p) in
  if Nat.ltb 1 (String.length d) && Text.truthy n
  then String dot n
  else EmptyString.

(** [p.stem]: the name without its suffix. *)
Definition stem (p : string) : string :=
  let (d, n) := rsplit_at dot (name p) in
  if Nat.ltb 1 (String.length d) && Text.truthy n
  then drop_last d
  else name p.

(** [p.with_suffix(suffix)] for a suffix that starts with a dot. *)
Definition with_suffix (p suffix : string) : result string :=
  if Text.is_empty (name p)
  then raise ValueError "path has an empty name"
  else Ok (parent_prefix p ++ stem p ++ suffix).

(** [d / n]. *)
Definition join (d n : string) : string :=
  String.append d (String slash n).

End Pathlib.

(** ** JSON documents *)

Inductive json : Type :=
| JNull
| JBool (b : bool)
| JNum (n : Z)
| JStr (s : string)
| JArr (l : list json)
| JObj (kv : list (string * json)).

Module Json.

(** Truthiness of a loaded JSON value. *)
Definition truthy (j : json) : bool :=
  match j with
  | JNull => false
  | JBool b => b
  | JNum n => negb (Z.eqb n 0)
  | JStr s => Text.truthy s
  | JArr l => match l with [] => false | _ :: _ => true end
  | JObj kv => match kv with [] => false | _ :: _ => true end
  end.

Fixpoint assoc (k : string) (kv : list (string * json)) : option json :=
  match kv with
  | [] => None
  | (k', v) :: rest => if String.eqb k k' then Some v else assoc k rest
  end.

(** [d.get(k)]; a value that is not a dict has no [get]. *)
Definition get (d : json) (k : string) : result (option json) :=
  match d with
  | JObj kv => Ok (assoc k kv)
  | _ => raise OtherException "object has no attribute 'get'"
  end.

(** [d.get(k, default)]. *)
Definition get_default (d : json) (k : string) (default : json)
  : result json :=
  o <- get d k ;;
  Ok (match o with Some v => v | None => default end).

(** [d[k]] on a dict. *)
Definition getitem (d : json) (k : string) : result json :=
  match d with
  | JObj kv =>
      match assoc k kv with
      | Some v => Ok v
      | None => raise KeyError k
      end
  | _ => raise OtherException "object is not subscriptable by a key"
  end.

(** [k in d] on a dict. *)
Definition contains (d : json) (k : string) : result bool :=
  match d with
  | JObj kv => Ok (match assoc k kv with Some _ => true | None => false end)
  | _ => raise OtherException "argument is not a container of keys"
  end.

(** [for x in j]: a list gives its items, a dict its keys; the scalar
    values are not iterable. *)
Definition iter (j : json) : result (list json) :=
  match j with
  | JArr l => Ok l
  | JObj kv => Ok (map (fun p => JStr (fst p)) kv)
  | JStr s => Ok (map (fun c => JStr (String c "")) (list_ascii_of_string s))
  | _ => raise OtherException "object is not iterable"
  end.

End Json.

(** ** Categories *)

Inductive DatasourceCategory : Type :=
| KNOWLEDGE_HUB
| PUBLISHED_CONTENT
| COLLABORATIVE_CONTENT
| QUESTION_ANSWER
| TICKETS
| CODE_REPOSITORY
| CHANGE_MANAGEMENT
| EMAIL
| MESSAGING
| CRM
| SSO
| ATS
| PEOPLE
| EXTERNAL_SHORTCUT
| UNCATEGORIZED.

Definition all_categories : list DatasourceCategory :=
  [KNOWLEDGE_HUB; PUBLISHED_CONTENT; COLLABORATIVE_CONTENT; QUESTION_ANSWER;
   TICKETS; CODE_REPOSITORY; CHANGE_MANAGEMENT; EMAIL; MESSAGING; CRM; SSO;
   ATS; PEOPLE; EXTERNAL_SHORTCUT; UNCATEGORIZED].

(** [cat.value]. *)
Definition category_value (c : DatasourceCategory) : string :=
  match c with
  | KNOWLEDGE_HUB => "KNOWLEDGE_HUB"
  | PUBLISHED_CONTENT => "PUBLISHED_CONTENT"
  | COLLABORATIVE_CONTENT => "COLLABORATIVE_CONTENT"
  | QUESTION_ANSWER => "QUESTION_ANSWER"
  | TICKETS => "TICKETS"
  | CODE_REPOSITORY => "CODE_REPOSITORY"
  | CHANGE_MANAGEMENT => "CHANGE_MANAGEMENT"
  | EMAIL => "EMAIL"
  | MESSAGING => "MESSAGING"
  | CRM => "CRM"
  | SSO => "SSO"
  | ATS => "ATS"
  | PEOPLE => "PEOPLE"
  | EXTERNAL_SHORTCUT => "EXTERNAL_SHORTCUT"
  | UNCATEGORIZED => "UNCATEGORIZED"
  end.

(** The remote side's [DatasourceCategory] and [DocCategory] enumerations
    have the same fifteen members under the same values. *)
Inductive GleanDatasourceCategory : Type :=
| GleanCategory (tag : DatasourceCategory).

Inductive DocCategory : Type :=
| DocCategoryOf (tag : DatasourceCategory).

Definition glean_category_value (c : GleanDatasourceCategory) : string :=
  match c with GleanCategory t => category_value t end.

Definition doc_category_value (c : DocCategory) : string :=
  match c with DocCategoryOf t => category_value t end.

Definition category_of_value (v : string) : option DatasourceCategory :=
  find (fun c => String.eqb (category_value c) v) all_categories.

(** [DATASOURCE_CATEGORY_MAP.get(key)]. *)
Definition DATASOURCE_CATEGORY_MAP (key : string)
  : option GleanDatasourceCategory :=
  option_map GleanCategory (category_of_value key).

(** [DOCUMENT_CATEGORY_MAP.get(key)]. *)
Definition DOCUMENT_CATEGORY_MAP (key : string) : option DocCategory :=
  option_map DocCategoryOf (category_of_value key).

(** ** The remote record *)

Record PropertyDefinition : Type := {
  pd_name : option string;
  pd_display_label : option string;
  pd_display_label_plural : option string;
  pd_property_type : option string;
  pd_ui_options : option string;
  pd_hide_ui_facet : option bool;
  pd_ui_facet_order : option Z;
  pd_skip_indexing : option bool;
  pd_group : option string
}.

Record PropertyGroup : Type := {
  pg_name : option string;
  pg_display_label : option string
}.

Record ObjectDefinition : Type := {
  od_name : option string;
  od_display_label : option string;
  od_doc_category : option DocCategory;
  od_property_definitions : option (list PropertyDefinition);
  od_property_groups : option (list PropertyGroup);
  od_summarizable : option bool
}.

Record IconConfig : Type := {
  ic_generated_background_color_key : option string;
  ic_background_color : option string;
  ic_color : option string;
  ic_key : option string;
  ic_icon_type : option string;
  ic_masked : option bool;
  ic_name : option string;
  ic_url : option string
}.

Record Quicklink : Type := {
  ql_name : option string;
  ql_short_name : option string;
  ql_url : option string;
  ql_id : option string;
  ql_icon_config : option IconConfig;
  ql_scopes : option (list string)
}.

(** The record that [datasources.add] sends and that
    [datasources.retrieve_config] returns. *)
Record CustomDatasourceConfig : Type := {
  name : string;
  display_name : option string;
  datasource_category : option GleanDatasourceCategory;
  url_regex_field : option string;
  icon_url_field : option string;
  icon_dark_url_field : option string;
  home_url : option string;
  suggestion_text_field : option string;
  object_definitions_field : option (list ObjectDefinition);
  quicklinks : option (list Quicklink);
  is_user_referenced_by_email : option bool;
  is_test_datasource : option bool;
  trust_url_regex_for_view_activity : option bool;
  strip_fragment_in_canonical_url : option bool;
  is_entity_datasource : option bool
}.

(** ** The collaborators *)

Record http_response : Type := {
  raise_for_status : result unit;
  header_content_type : option string;
  content : list Byte.byte
}.

Definition filesystem : Type := string -> option (list Byte.byte).

Record World : Type := {
  fs : filesystem;
  httpx_get : string -> result http_response;
  json_load : list Byte.byte -> result json;
  json_dump : json -> list Byte.byte;
  retrieve_config : string -> result (option CustomDatasourceConfig);
  add : CustomDatasourceConfig -> result unit;
  Confirm_ask : string -> bool
}.

Definition exists_ (f : filesystem) (path : string) : bool :=
  match f path with Some _ => true | None => false end.

Definition read_bytes (f : filesystem) (path : string)
  : result (list Byte.byte) :=
  match f path with
  | Some c => Ok c
  | None => raise OtherException ("No such file or directory: " ++ path)
  end.

Definition write_bytes (f : filesystem) (path : string)
           (c : list Byte.byte) : filesystem :=
  fun p => if String.eqb p path then Some c else f p.

(** The file system as seen after changing into directory [dir]. *)
Definition chdir (dir : string) (f : filesystem) : filesystem :=
  fun p => f (Pathlib.join dir p).

Definition with_fs (w : World) (f : filesystem) : World :=
  {| fs := f;
     httpx_get := httpx_get w;
     json_load := json_load w;
     json_dump := json_dump w;
     retrieve_config := retrieve_config w;
     add := add w;
     Confirm_ask := Confirm_ask w |}.

(** ** Utilities of [manage.py] *)

Definition hyphen : ascii := "-"%char.

(** [normalize_datasource_id]: the three substitutions, then
    [strip("-")] and [lower()]. *)
Definition normalize_datasource_id (display_name : string) : string :=
  let normalized :=
    Text.re_sub_class_empty
      (fun c => negb (Text.is_alnum c || Text.is_space c
                      || Text.is_char hyphen c))
      display_name in
  let normalized := Text.re_sub_class_plus Text.is_space "-" normalized in
  let normalized :=
    Text.re_sub_class_plus (Text.is_char hyphen) "-" normalized in
  Text.lower (Text.strip_chars (Text.is_char hyphen) normalized).

(** The [mime_types] table of [get_icon_as_data_url]. *)
Definition mime_types (suffix : string) : option string :=
  if String.eqb suffix ".png" then Some "image/png"
  else if String.eqb suffix ".svg" then Some "image/svg+xml"
  else None.

Definition data_url (mime_type : string) (c : list Byte.byte) : string :=
  "data:" ++ mime_type ++ ";base64," ++ Base64.b64encode c.

Definition get_icon_as_data_url (f : filesystem) (file_path : string)
  : result string :=
  let suffix := Text.lower (Pathlib.suffix file_path) in
  match mime_types suffix with
  | None => raise ValueError ("Unsupported image format: " ++ suffix)
  | Some mime =>
      c <- read_bytes f file_path ;;
      Ok (data_url mime c)
  end.

(** The body of the [try] block of [download_icon]. *)
Definition download_icon_body (w : World) (url : string) : result string :=
  response <- httpx_get w url ;;
  _ <- raise_for_status response ;;
  let content_type :=
    Text.lower (match header_content_type response with
                | Some v => v
                | None => ""
                end) in
  let mime_type :=
    if Text.contains "svg" content_type then "image/svg+xml"
    else if Text.contains "png" content_type then "image/png"
    else if Text.endswith ".svg" (Text.lower url) then "image/svg+xml"
    else "image/png" in
  Ok (data_url mime_type (content response)).

Definition download_icon (w : World) (url : string) : result string :=
  match download_icon_body w url with
  | Ok v => Ok v
  | Err e =>
      raise ValueError
        ("Failed to download icon from " ++ url ++ ": " ++ exn_msg e)
  end.

Definition semicolon : ascii := ";"%char.

Fixpoint span (p : ascii -> bool) (s : string) : string * string :=
  match s with
  | EmptyString => (EmptyString, EmptyString)
  | String c s' =>
      if p c then let (a, b) := span p s' in (String c a, b)
      else (EmptyString, s)
  end.

Fixpoint drop (n : nat) (s : string) : string :=
  match n, s with
  | O, _ => s
  | S _, EmptyString => EmptyString
  | S n', String _ s' => drop n' s'
  end.

(** [re.match("data:([^;]+);base64,(.+)", data_url)] and its two groups.
    The first group cannot contain a semicolon, so it is the longest run
    of other characters after [data:] and must be followed by
    [;base64,]; the second group is the longest non-empty run without a
    line feed after that. *)
Definition match_data_url (data_url : string) : option (string * string) :=
  if Text.startswith "data:" data_url then
    let (mime_type, rest) :=
      span (fun c => negb (Text.is_char semicolon c)) (drop 5 data_url) in
    if Text.truthy mime_type && Text.startswith ";base64," rest then
      let (base64_content, _) :=
        span (fun c => negb (Text.is_char Regex.newline c)) (drop 8 rest) in
      if Text.truthy base64_content
      then Some (mime_type, base64_content)
      else None
    else None
  else None.

(** The [extension_map] table of [save_data_url_to_file]. *)
Definition extension_map (mime_type : string) : option string :=
  if String.eqb mime_type "image/png" then Some "png"
  else if String.eqb mime_type "image/svg+xml" then Some "svg"
  else None.

(** [save_data_url_to_file]: the extension used and the file system after
    the write. *)
Definition save_data_url_to_file (f : filesystem) (data_url file_path : string)
  : result (string * filesystem) :=
  if negb (Text.truthy data_url && Text.startswith "data:" data_url)
  then raise ValueError "Invalid data URL"
  else
    match match_data_url data_url with
    | None => raise ValueError "Invalid data URL format"
    | Some (mime_type, base64_content) =>
        match extension_map mime_type with
        | None => raise ValueError ("Unsupported MIME type: " ++ mime_type)
        | Some extension =>
            c <- Base64.b64decode base64_content ;;
            target <- Pathlib.with_suffix file_path ("." ++ extension) ;;
            Ok (extension, write_bytes f target c)
        end
    end.

(** [load_object_definitions] and [load_quick_links]: the value under
    [key] of the JSON document at [file_path], an empty list when the file
    is missing, cannot be parsed or lacks the key. *)
Definition load_json_list (w : World) (file_path key : string) : json :=
  let path := Pathlib.Path file_path in
  if negb (exists_ (fs w) path) then JArr []
  else
    match (c <- read_bytes (fs w) path ;;
           data <- json_load w c ;;
           Json.get_default data key (JArr [])) with
    | Ok v => v
    | Err _ => JArr []
    end.

Definition load_object_definitions (w : World) : json :=
  load_json_list w "object_types.json" "objectTypes".

Definition load_quick_links (w : World) : json :=
  load_json_list w "quick_links.json" "quicklinks".

(** ** [DatasourceSettings] *)

Record DatasourceSettings : Type := {
  glean_indexing_api_key : string;
  glean_instance_name : string;
  glean_datasource_display_name : string;
  glean_datasource_id : string;
  glean_datasource_category : DatasourceCategory;
  glean_datasource_home_url : string;
  glean_datasource_url_regex : option string;
  glean_datasource_icon_filename_lightmode : option string;
  glean_datasource_icon_url_lightmode : option string;
  glean_datasource_icon_filename_darkmode : option string;
  glean_datasource_icon_url_darkmode : option string;
  glean_datasource_user_referenced_by_email : bool;
  glean_datasource_is_test_mode : bool;
  glean_datasource_test_user_emails : string;
  glean_datasource_suggestion_text : option string
}.

Definition display_name_symbols : list ascii :=
  ["/"%char; ";"%char; ":"%char; ","%char].

(** The field validator of [glean_datasource_display_name]. *)
Definition validate_display_name (v : string) : result string :=
  if negb (String.eqb v (Text.strip v))
  then raise ValueError
         "Display name cannot have leading or trailing whitespace"
  else
    match Text.last_char v with
    | Some c =>
        if Text.one_of display_name_symbols c
        then raise ValueError
               "Display name cannot end with symbols like /, ;, :, ,"
        else Ok v
    | None => Ok v
    end.

(** [url_regex]. *)
Definition url_regex (s : DatasourceSettings) : string :=
  if Text.truthy_opt (glean_datasource_url_regex s)
  then Text.value (glean_datasource_url_regex s)
  else Text.rstrip (Text.is_char Pathlib.slash)
         (glean_datasource_home_url s) ++ "/.*".

Definition email_local_class (c : ascii) : bool :=
  Text.is_alnum c
  || Text.one_of ["."%char; "_"%char; "%"%char; "+"%char; "-"%char] c.

Definition email_domain_class (c : ascii) : bool :=
  Text.is_alnum c || Text.one_of ["."%char; "-"%char] c.

(** [^[a-zA-Z0-9._%+-]+@[a-zA-Z0-9.-]+\.[a-zA-Z]{2,}$]. *)
Definition email_pattern : Regex.regex :=
  Regex.Cat (Regex.Plus (Regex.Cls email_local_class))
    (Regex.Cat (Regex.Chr "@"%char)
       (Regex.Cat (Regex.Plus (Regex.Cls email_domain_class))
          (Regex.Cat (Regex.Chr "."%char)
             (Regex.AtLeast 2 (Regex.Cls Text.is_alpha))))).

Definition comma : ascii := ","%char.

(** The validation loop of [test_user_emails_list]: the valid addresses
    and the warnings logged, both in order. *)
Fixpoint validate_emails (emails : list string)
  : list string * list string :=
  match emails with
  | [] => ([], [])
  | email :: rest =>
      let (valid_emails, warnings) := validate_emails rest in
      if Regex.match_anchored email_pattern email
      then (email :: valid_emails, warnings)
      else (valid_emails,
            ("Invalid email format: " ++ email ++ " (skipped)") :: warnings)
  end.

(** [test_user_emails_list], with the warnings it logs. *)
Definition test_user_emails_list (s : DatasourceSettings)
  : list string * list string :=
  if negb (Text.truthy (glean_datasource_test_user_emails s)) then ([], [])
  else
    let emails :=
      map Text.strip
        (filter (fun email => Text.truthy (Text.strip email))
           (Text.split_on comma (glean_datasource_test_user_emails s))) in
    validate_emails emails.

Definition no_light_icon_message : string :=
  "No light mode icon found. Please provide one of the following:
1. Place an 'icon-lightmode.png' file in the current directory
2. Set GLEAN_DATASOURCE_ICON_FILENAME_LIGHTMODE to point to your icon file
3. Set GLEAN_DATASOURCE_ICON_URL_LIGHTMODE to an icon URL".

Definition no_dark_icon_message : string :=
  "No dark mode icon found. Please provide one of the following:
1. Place an 'icon-darkmode.png' file in the current directory
2. Set GLEAN_DATASOURCE_ICON_FILENAME_DARKMODE to point to your icon file
3. Set GLEAN_DATASOURCE_ICON_URL_DARKMODE to an icon URL
Note: Dark mode icon falls back to light mode icon if not specified.".

(** [icon_url]. *)
Definition icon_url (w : World) (s : DatasourceSettings) : result string :=
  if Text.truthy_opt (glean_datasource_icon_filename_lightmode s) then
    let file := Text.value (glean_datasource_icon_filename_lightmode s) in
    let path := Pathlib.Path file in
    if exists_ (fs w) path then get_icon_as_data_url (fs w) path
    else raise ValueError ("Icon file not found: " ++ file)
  else if Text.truthy_opt (glean_datasource_icon_url_lightmode s) then
    download_icon w (Text.value (glean_datasource_icon_url_lightmode s))
  else
    let default_path := Pathlib.Path "icon-lightmode.png" in
    if exists_ (fs w) default_path
    then get_icon_as_data_url (fs w) default_path
    else raise ValueError no_light_icon_message.

(** [icon_dark_url]: the light icon is the last candidate, and only a
    [ValueError] of its resolution is replaced by the dark-mode message. *)
Definition icon_dark_url (w : World) (s : DatasourceSettings)
  : result string :=
  if Text.truthy_opt (glean_datasource_icon_filename_darkmode s) then
    let file := Text.value (glean_datasource_icon_filename_darkmode s) in
    let path := Pathlib.Path file in
    if exists_ (fs w) path then get_icon_as_data_url (fs w) path
    else raise ValueError ("Icon file not found: " ++ file)
  else if Text.truthy_opt (glean_datasource_icon_url_darkmode s) then
    download_icon w (Text.value (glean_datasource_icon_url_darkmode s))
  else
    let default_path := Pathlib.Path "icon-darkmode.png" in
    if exists_ (fs w) default_path
    then get_icon_as_data_url (fs w) default_path
    else
      match icon_url w s with
      | Ok v => Ok v
      | Err (Exn ValueError _) => raise ValueError no_dark_icon_message
      | Err e => Err e
      end.

Definition object_definitions (w : World) (s : DatasourceSettings) : json :=
  load_object_definitions w.

Definition quick_links (w : World) (s : DatasourceSettings) : json :=
  load_quick_links w.

(** [suggestion_text]. *)
Definition suggestion_text (s : DatasourceSettings) : string :=
  if Text.truthy_opt (glean_datasource_suggestion_text s)
  then Text.value (glean_datasource_suggestion_text s)
  else "Search for anything in " ++ glean_datasource_display_name s ++ "...".

(** ** Assembly: [DatasourceSettings(...)] from the environment *)

(** The environment: the assignments of the env file and of the process,
    first assignment first. *)
Definition env : Type := list (string * string).

Fixpoint env_get (k : string) (e : env) : option string :=
  match e with
  | [] => None
  | (k', v) :: rest => if String.eqb k k' then Some v else env_get k rest
  end.

Definition required (e : env) (k : string) : result string :=
  match env_get k e with
  | Some v => Ok v
  | None => raise ValueError "Field required"
  end.

(** A [bool] field read from a string. *)
Definition parse_bool (v : string) : result bool :=
  let l := Text.lower v in
  if existsb (String.eqb l) ["1"; "on"; "t"; "true"; "y"; "yes"]
  then Ok true
  else if existsb (String.eqb l) ["0"; "off"; "f"; "false"; "n"; "no"]
  then Ok false
  else raise ValueError "Input should be a valid boolean".

Definition slug_class (c : ascii) : bool :=
  Text.is_lower c || Text.is_digit c || Text.is_char hyphen c.

(** [^[a-z0-9-]+$]. *)
Definition datasource_id_pattern : Regex.regex :=
  Regex.Plus (Regex.Cls slug_class).

(** [^https?://]. *)
Definition home_url_pattern : Regex.regex :=
  Regex.Cat (Regex.Lit "http")
    (Regex.Cat (Regex.Opt (Regex.Chr "s"%char)) (Regex.Lit "://")).

(** The field [glean_datasource_display_name]: the length constraint,
    then the validator. *)
Definition field_display_name (v : string) : result string :=
  if Nat.ltb 50 (String.length v)
  then raise ValueError "String should have at most 50 characters"
  else validate_display_name v.

(** The field [glean_datasource_id]: a pattern constraint is checked on
    the whole text. *)
Definition field_datasource_id (v : string) : result string :=
  if Regex.fullmatch datasource_id_pattern v then Ok v
  else raise ValueError "String should match pattern '^[a-z0-9-]+$'".

Definition field_home_url (v : string) : result string :=
  if Regex.match_prefix home_url_pattern v then Ok v
  else raise ValueError "String should match pattern '^https?://'".

Definition field_category (o : option string) : result DatasourceCategory :=
  match o with
  | None => Ok KNOWLEDGE_HUB
  | Some v =>
      match category_of_value v with
      | Some c => Ok c
      | None => raise ValueError "Input should be a member of the enumeration"
      end
  end.

Definition field_bool (o : option string) (default : bool) : result bool :=
  match o with
  | None => Ok default
  | Some v => parse_bool v
  end.

(** The entry of the error report for one field. *)
Definition field_error {A : Type} (loc : string) (r : result A)
  : list (string * string) :=
  match r with
  | Ok _ => []
  | Err e => [(loc, exn_msg e)]
  end.

Definition value_or {A : Type} (r : result A) (default : A) : A :=
  match r with
  | Ok a => a
  | Err _ => default
  end.

(** The outcome of a construction: the settings, or the [ValidationError]
    with one entry per offending field. *)
Inductive validated (A : Type) : Type :=
| Valid (a : A)
| Invalid (errors : list (string * string)).

Arguments Valid {A} a.
Arguments Invalid {A} errors.

Definition DatasourceSettings_init (e : env) : validated DatasourceSettings :=
  let api_key := required e "GLEAN_INDEXING_API_KEY" in
  let instance := required e "GLEAN_INSTANCE_NAME" in
  let display :=
    bind (required e "GLEAN_DATASOURCE_DISPLAY_NAME") field_display_name in
  let id := bind (required e "GLEAN_DATASOURCE_ID") field_datasource_id in
  let category := field_category (env_get "GLEAN_DATASOURCE_CATEGORY" e) in
  let home := bind (required e "GLEAN_DATASOURCE_HOME_URL") field_home_url in
  let by_email :=
    field_bool (env_get "GLEAN_DATASOURCE_USER_REFERENCED_BY_EMAIL" e) true in
  let test_mode :=
    field_bool (env_get "GLEAN_DATASOURCE_IS_TEST_MODE" e) true in
  let errors :=
   (field_error "glean_indexing_api_key" api_key
    ++ field_error "glean_instance_name" instance
    ++ field_error "glean_datasource_display_name" display
    ++ field_error "glean_datasource_id" id
    ++ field_error "glean_datasource_category" category
    ++ field_error "glean_datasource_home_url" home
    ++ field_error "glean_datasource_user_referenced_by_email" by_email
    ++ field_error "glean_datasource_is_test_mode" test_mode)%list in
  match errors with
  | _ :: _ => Invalid errors
  | [] =>
      Valid {|
        glean_indexing_api_key := value_or api_key "";
        glean_instance_name := value_or instance "";
        glean_datasource_display_name := value_or display "";
        glean_datasource_id := value_or id "";
        glean_datasource_category := value_or category KNOWLEDGE_HUB;
        glean_datasource_home_url := value_or home "";
        glean_datasource_url_regex := env_get "GLEAN_DATASOURCE_URL_REGEX" e;
        glean_datasource_icon_filename_lightmode :=
          env_get "GLEAN_DATASOURCE_ICON_FILENAME_LIGHTMODE" e;
        glean_datasource_icon_url_lightmode :=
          env_get "GLEAN_DATASOURCE_ICON_URL_LIGHTMODE" e;
        glean_datasource_icon_filename_darkmode :=
          env_get "GLEAN_DATASOURCE_ICON_FILENAME_DARKMODE" e;
        glean_datasource_icon_url_darkmode :=
          env_get "GLEAN_DATASOURCE_ICON_URL_DARKMODE" e;
        glean_datasource_user_referenced_by_email := value_or by_email true;
        glean_datasource_is_test_mode := value_or test_mode true;
        glean_datasource_test_user_emails :=
          match env_get "GLEAN_DATASOURCE_TEST_USER_EMAILS" e with
          | Some v => v
          | None => ""
          end;
        glean_datasource_suggestion_text :=
          env_get "GLEAN_DATASOURCE_SUGGESTION_TEXT" e
      |}
  end.


(** ** Push: [create_datasource] *)

Fixpoint map_result {A B : Type} (f : A -> result B) (l : list A)
  : result (list B) :=
  match l with
  | [] => Ok []
  | a :: rest =>
      b <- f a ;;
      bs <- map_result f rest ;;
      Ok (b :: bs)
  end.

(** The constructors of the remote side's models check the type of each
    argument: an absent or null argument is [None], a value of the
    declared type is kept, anything else is refused. *)
Module Sdk.

Definition str (o : option json) : result (option string) :=
  match o with
  | None | Some JNull => Ok None
  | Some (JStr s) => Ok (Some s)
  | Some _ => raise ValueError "Input should be a valid string"
  end.

Definition boolean (o : option json) : result (option bool) :=
  match o with
  | None | Some JNull => Ok None
  | Some (JBool b) => Ok (Some b)
  | Some _ => raise ValueError "Input should be a valid boolean"
  end.

Definition int (o : option json) : result (option Z) :=
  match o with
  | None | Some JNull => Ok None
  | Some (JNum n) => Ok (Some n)
  | Some _ => raise ValueError "Input should be a valid integer"
  end.

Definition list_of {A : Type} (f : json -> result A) (o : option json)
  : result (option (list A)) :=
  match o with
  | None | Some JNull => Ok None
  | Some (JArr l) => l' <- map_result f l ;; Ok (Some l')
  | Some _ => raise ValueError "Input should be a valid list"
  end.

Definition str_field (d : json) (k : string) : result (option string) :=
  o <- Json.get d k ;; str o.

Definition bool_field (d : json) (k : string) : result (option bool) :=
  o <- Json.get d k ;; boolean o.

Definition int_field (d : json) (k : string) : result (option Z) :=
  o <- Json.get d k ;; int o.

Definition property_definition (d : json) : result PropertyDefinition :=
  n <- str_field d "name" ;;
  dl <- str_field d "display_label" ;;
  dlp <- str_field d "display_label_plural" ;;
  pt <- str_field d "property_type" ;;
  ui <- str_field d "ui_options" ;;
  hide <- bool_field d "hide_ui_facet" ;;
  order <- int_field d "ui_facet_order" ;;
  skip <- bool_field d "skip_indexing" ;;
  g <- str_field d "group" ;;
  Ok {| pd_name := n; pd_display_label := dl; pd_display_label_plural := dlp;
        pd_property_type := pt; pd_ui_options := ui; pd_hide_ui_facet := hide;
        pd_ui_facet_order := order; pd_skip_indexing := skip;
        pd_group := g |}.

Definition property_group (d : json) : result PropertyGroup :=
  n <- str_field d "name" ;;
  dl <- str_field d "display_label" ;;
  Ok {| pg_name := n; pg_display_label := dl |}.

Definition scope (j : json) : result string :=
  match j with
  | JStr s => Ok s
  | _ => raise ValueError "Input should be a member of the enumeration"
  end.

End Sdk.

(** [DOCUMENT_CATEGORY_MAP.get(doc_category_str, DocCategory.KNOWLEDGE_HUB)]
    for a key taken from a JSON document: a list or a dict cannot be a
    key. *)
Definition document_category_get (key : json) : result DocCategory :=
  match key with
  | JStr s =>
      Ok (match DOCUMENT_CATEGORY_MAP s with
          | Some c => c
          | None => DocCategoryOf KNOWLEDGE_HUB
          end)
  | JArr _ | JObj _ => raise OtherException "unhashable type"
  | _ => Ok (DocCategoryOf KNOWLEDGE_HUB)
  end.

(** One iteration of the loop that prepares the object definitions. *)
Definition prepare_object_definition (obj : json) : result ObjectDefinition :=
  doc_category_str <-
    Json.get_default obj "doc_category" (JStr "KNOWLEDGE_HUB") ;;
  doc_category <- document_category_get doc_category_str ;;
  n <- Json.getitem obj "name" ;;
  display_label <- Json.get_default obj "display_label" n ;;
  property_definitions <- Json.get obj "property_definitions" ;;
  property_groups <- Json.get obj "property_groups" ;;
  summarizable <- Json.get_default obj "summarizable" (JBool false) ;;
  n' <- Sdk.str (Some n) ;;
  display_label' <- Sdk.str (Some display_label) ;;
  pds <- Sdk.list_of Sdk.property_definition property_definitions ;;
  pgs <- Sdk.list_of Sdk.property_group property_groups ;;
  summarizable' <- Sdk.boolean (Some summarizable) ;;
  Ok {| od_name := n'; od_display_label := display_label';
        od_doc_category := Some doc_category;
        od_property_definitions := pds; od_property_groups := pgs;
        od_summarizable := summarizable' |}.

(** [key in container] and [container[key]] for a string key. *)
Definition json_in (key : string) (container : json) : result bool :=
  match container with
  | JObj kv =>
      Ok (match Json.assoc key kv with Some _ => true | None => false end)
  | JStr s => Ok (Text.contains key s)
  | JArr l =>
      Ok (existsb (fun j => match j with
                            | JStr s => String.eqb s key
                            | _ => false
                            end) l)
  | _ => raise OtherException "argument is not iterable"
  end.

(** The copy of the listed keys of [icon_config]: the keys kept, in the
    order of the list. *)
Fixpoint copy_keys (keys : list string) (source : json)
  : result (list (string * json)) :=
  match keys with
  | [] => Ok []
  | key :: rest =>
      present <- json_in key source ;;
      if present then
        v <- Json.getitem source key ;;
        others <- copy_keys rest source ;;
        Ok ((key, v) :: others)
      else copy_keys rest source
  end.

Definition icon_config_keys : list string :=
  ["generated_background_color_key"; "background_color"; "color"; "key";
   "icon_type"; "masked"; "name"; "url"].

(** [models.IconConfig] built from the copied keys. *)
Definition make_icon_config (kv : list (string * json)) : result IconConfig :=
  let d := JObj kv in
  g <- Sdk.str_field d "generated_background_color_key" ;;
  b <- Sdk.str_field d "background_color" ;;
  c <- Sdk.str_field d "color" ;;
  k <- Sdk.str_field d "key" ;;
  t <- Sdk.str_field d "icon_type" ;;
  m <- Sdk.bool_field d "masked" ;;
  n <- Sdk.str_field d "name" ;;
  u <- Sdk.str_field d "url" ;;
  Ok {| ic_generated_background_color_key := g; ic_background_color := b;
        ic_color := c; ic_key := k; ic_icon_type := t; ic_masked := m;
        ic_name := n; ic_url := u |}.

(** [k in ql and ql[k]]: the value when the key is present and truthy. *)
Definition present_and_truthy (ql : json) (k : string)
  : result (option json) :=
  present <- json_in k ql ;;
  if present then
    v <- Json.getitem ql k ;;
    Ok (if Json.truthy v then Some v else None)
  else Ok None.

(** One iteration of the loop that prepares the quick links. *)
Definition prepare_quicklink (ql : json) : result Quicklink :=
  n <- Json.get ql "name" ;;
  short_name <- Json.get ql "short_name" ;;
  url <- Json.get ql "url" ;;
  id <- Json.get ql "id" ;;
  icon_source <- present_and_truthy ql "icon_config" ;;
  icon <-
    match icon_source with
    | None => Ok None
    | Some source =>
        icon_config <- copy_keys icon_config_keys source ;;
        match icon_config with
        | [] => Ok None
        | _ :: _ => ic <- make_icon_config icon_config ;; Ok (Some ic)
        end
    end ;;
  scopes_source <- present_and_truthy ql "scopes" ;;
  n' <- Sdk.str n ;;
  short_name' <- Sdk.str short_name ;;
  url' <- Sdk.str url ;;
  id' <- Sdk.str id ;;
  scopes <- Sdk.list_of Sdk.scope scopes_source ;;
  Ok {| ql_name := n'; ql_short_name := short_name'; ql_url := url';
        ql_id := id'; ql_icon_config := icon; ql_scopes := scopes |}.

Definition non_empty {A : Type} (l : list A) : option (list A) :=
  match l with
  | [] => None
  | _ :: _ => Some l
  end.

(** Everything between the existence check and the call of
    [datasources.add]: the request that will be sent. *)
Definition prepare_request (w : World) (s : DatasourceSettings)
  : result CustomDatasourceConfig :=
  objs <- Json.iter (object_definitions w s) ;;
  object_defs <- map_result prepare_object_definition objs ;;
  qls <- Json.iter (quick_links w s) ;;
  quicklinks' <- map_result prepare_quicklink qls ;;
  let glean_category :=
    match DATASOURCE_CATEGORY_MAP
            (category_value (glean_datasource_category s)) with
    | Some c => c
    | None => GleanCategory KNOWLEDGE_HUB
    end in
  icon <- icon_url w s ;;
  icon_dark <- icon_dark_url w s ;;
  Ok {| name := glean_datasource_id s;
        display_name := Some (glean_datasource_display_name s);
        datasource_category := Some glean_category;
        url_regex_field := Some (url_regex s);
        icon_url_field := Some icon;
        icon_dark_url_field := Some icon_dark;
        home_url := Some (glean_datasource_home_url s);
        suggestion_text_field := Some (suggestion_text s);
        object_definitions_field := non_empty object_defs;
        quicklinks := non_empty quicklinks';
        is_user_referenced_by_email :=
          Some (glean_datasource_user_referenced_by_email s);
        is_test_datasource := Some (glean_datasource_is_test_mode s);
        trust_url_regex_for_view_activity := Some true;
        strip_fragment_in_canonical_url := Some true;
        is_entity_datasource := Some false |}.

(** What a run of [create_datasource] did: the value returned, whether
    the overwrite prompt was shown, the request passed to
    [datasources.add] if that call was reached, and the error logged. *)
Record push_outcome : Type := {
  returned : bool;
  prompted : bool;
  add_called_with : option CustomDatasourceConfig;
  logged_error : option string
}.

Definition overwrite_prompt : string :=
  "Do you want to overwrite the existing configuration?".

(** The existence check: [(abort, prompted)]. An exception of the
    retrieval is swallowed. *)
Definition check_existence (w : World) (s : DatasourceSettings)
           (force : bool) : bool * bool :=
  match retrieve_config w (glean_datasource_id s) with
  | Ok (Some existing) =>
      if negb force
      then (negb (Confirm_ask w overwrite_prompt), true)
      else (false, false)
  | Ok None => (false, false)
  | Err _ => (false, false)
  end.

(** The part of [create_datasource] after the existence check. *)
Definition create_after_check (w : World) (s : DatasourceSettings)
           (was_prompted : bool) : push_outcome :=
  match prepare_request w s with
  | Err e =>
      {| returned := false; prompted := was_prompted;
         add_called_with := None;
         logged_error :=
           Some ("Failed to create datasource: " ++ exn_msg e) |}
  | Ok request =>
      match add w request with
      | Ok _ =>
          {| returned := true; prompted := was_prompted;
             add_called_with := Some request; logged_error := None |}
      | Err e =>
          {| returned := false; prompted := was_prompted;
             add_called_with := Some request;
             logged_error :=
               Some ("Failed to create datasource: " ++ exn_msg e) |}
      end
  end.

Definition create_datasource (w : World) (s : DatasourceSettings)
           (force : bool) : push_outcome :=
  let (abort, was_prompted) := check_existence w s force in
  if abort
  then {| returned := false; prompted := was_prompted;
          add_called_with := None; logged_error := None |}
  else create_after_check w s was_prompted.

(** ** Pull: [fetch_datasource_config] *)

Definition json_of_str (o : option string) : json :=
  match o with Some s => JStr s | None => JNull end.

Definition json_of_bool (o : option bool) : json :=
  match o with Some b => JBool b | None => JNull end.

Definition truthy_bool (o : option bool) : bool :=
  match o with Some b => b | None => false end.

Definition truthy_list {A : Type} (o : option (list A)) : bool :=
  match o with Some (_ :: _) => true | _ => false end.

Definition items {A : Type} (o : option (list A)) : list A :=
  match o with Some l => l | None => [] end.

(** An entry added to a dict only when its value is truthy. *)
Definition str_entry (k : string) (o : option string)
  : list (string * json) :=
  if Text.truthy_opt o then [(k, JStr (Text.value o))] else [].

Definition bool_entry (k : string) (o : option bool)
  : list (string * json) :=
  if truthy_bool o then [(k, JBool true)] else [].

(** An entry added only when its value is not [None]. *)
Definition some_entry (k : string) (o : option json)
  : list (string * json) :=
  match o with Some v => [(k, v)] | None => [] end.

Definition export_property (prop : PropertyDefinition) : json :=
  JObj ([("name", json_of_str (pd_name prop))]
        ++ str_entry "display_label" (pd_display_label prop)
        ++ str_entry "display_label_plural" (pd_display_label_plural prop)
        ++ str_entry "property_type" (pd_property_type prop)
        ++ str_entry "ui_options" (pd_ui_options prop)
        ++ bool_entry "hide_ui_facet" (pd_hide_ui_facet prop)
        ++ some_entry "ui_facet_order"
             (option_map JNum (pd_ui_facet_order prop))
        ++ bool_entry "skip_indexing" (pd_skip_indexing prop)
        ++ str_entry "group" (pd_group prop))%list.

Definition export_group (group : PropertyGroup) : json :=
  JObj ([("name", json_of_str (pg_name group))]
        ++ str_entry "display_label" (pg_display_label group))%list.

Definition export_object (obj : ObjectDefinition) : json :=
  JObj ([("name", json_of_str (od_name obj));
         ("display_label",
          if Text.truthy_opt (od_display_label obj)
          then JStr (Text.value (od_display_label obj))
          else json_of_str (od_name obj));
         ("doc_category",
          JStr (match od_doc_category obj with
                | Some c => doc_category_value c
                | None => "KNOWLEDGE_HUB"
                end));
         ("summarizable", json_of_bool (od_summarizable obj))]
        ++ (if truthy_list (od_property_definitions obj)
            then [("property_definitions",
                   JArr (map export_property
                           (items (od_property_definitions obj))))]
            else [])
        ++ (if truthy_list (od_property_groups obj)
            then [("property_groups",
                   JArr (map export_group (items (od_property_groups obj))))]
            else []))%list.

Definition export_icon_config (ic : IconConfig) : list (string * json) :=
  (some_entry "generated_background_color_key"
     (option_map JStr (ic_generated_background_color_key ic))
   ++ some_entry "background_color" (option_map JStr (ic_background_color ic))
   ++ some_entry "color" (option_map JStr (ic_color ic))
   ++ some_entry "key" (option_map JStr (ic_key ic))
   ++ some_entry "icon_type" (option_map JStr (ic_icon_type ic))
   ++ some_entry "masked" (option_map JBool (ic_masked ic))
   ++ some_entry "name" (option_map JStr (ic_name ic))
   ++ some_entry "url" (option_map JStr (ic_url ic)))%list.

Definition export_quicklink (ql : Quicklink) : list (string * json) :=
  (str_entry "name" (ql_name ql)
   ++ str_entry "short_name" (ql_short_name ql)
   ++ str_entry "url" (ql_url ql)
   ++ str_entry "id" (ql_id ql)
   ++ match ql_icon_config ql with
      | Some ic =>
          match export_icon_config ic with
          | [] => []
          | icon_config => [("icon_config", JObj icon_config)]
          end
      | None => []
      end
   ++ (if truthy_list (ql_scopes ql)
       then [("scopes", JArr (map JStr (items (ql_scopes ql))))]
       else []))%list.

(** The quick links written: a quick link with no data is left out. *)
Definition export_quicklinks (qls : list Quicklink) : list json :=
  map JObj
    (filter (fun d => match d with [] => false | _ :: _ => true end)
       (map export_quicklink qls)).

Definition bool_text (o : option bool) : string :=
  if truthy_bool o then "true" else "false".

(** The assignments of the env file written by the export, in the order
    of its lines. The line of the test user e-mails is a comment and
    assigns nothing; the credential is assigned the empty text. *)
Definition env_content (settings : DatasourceSettings)
           (datasource_id : string) (config : CustomDatasourceConfig)
           (icon_light_filename icon_dark_filename : option string) : env :=
  [("GLEAN_INSTANCE_NAME", glean_instance_name settings);
   ("GLEAN_INDEXING_API_KEY", "");
   ("GLEAN_DATASOURCE_DISPLAY_NAME", Text.or_else (display_name config) "");
   ("GLEAN_DATASOURCE_ID", datasource_id);
   ("GLEAN_DATASOURCE_CATEGORY",
    match datasource_category config with
    | Some c => glean_category_value c
    | None => "KNOWLEDGE_HUB"
    end);
   ("GLEAN_DATASOURCE_HOME_URL", Text.or_else (home_url config) "");
   ("GLEAN_DATASOURCE_URL_REGEX", Text.or_else (url_regex_field config) "");
   ("GLEAN_DATASOURCE_ICON_FILENAME_LIGHTMODE",
    Text.or_else icon_light_filename "icon-lightmode.png");
   ("GLEAN_DATASOURCE_ICON_FILENAME_DARKMODE",
    Text.or_else icon_dark_filename "icon-darkmode.png");
   ("GLEAN_DATASOURCE_USER_REFERENCED_BY_EMAIL",
    bool_text (is_user_referenced_by_email config));
   ("GLEAN_DATASOURCE_IS_TEST_MODE", bool_text (is_test_datasource config));
   ("GLEAN_DATASOURCE_SUGGESTION_TEXT",
    Text.or_else (suggestion_text_field config) "")].

(** Saving one icon: the file name recorded and the file system after;
    a failure only logs a warning. *)
Definition save_icon (f : filesystem) (url : option string)
           (config_dir stem : string) : option string * filesystem :=
  if Text.truthy_opt url then
    match save_data_url_to_file f (Text.value url)
            (Pathlib.join config_dir stem) with
    | Ok (ext, f') => (Some (stem ++ "." ++ ext), f')
    | Err _ => (None, f)
    end
  else (None, f).

(** What the export leaves behind: the file system, and the env file with
    its path. *)
Record export : Type := {
  exported_fs : filesystem;
  env_path : string;
  env_file : env
}.

(** The [if save:] block. *)
Definition save_config (w : World) (settings : DatasourceSettings)
           (datasource_id : string) (config : CustomDatasourceConfig)
  : export :=
  let config_dir := Pathlib.Path (datasource_id ++ "-config") in
  let (icon_light_filename, f1) :=
    save_icon (fs w) (icon_url_field config) config_dir "icon-lightmode" in
  let (icon_dark_filename, f2) :=
    save_icon f1 (icon_dark_url_field config) config_dir "icon-darkmode" in
  let f3 :=
    if truthy_list (object_definitions_field config)
    then write_bytes f2 (Pathlib.join config_dir "object_types.json")
           (json_dump w
              (JObj [("objectTypes",
                      JArr (map export_object
                              (items (object_definitions_field config))))]))
    else f2 in
  let f4 :=
    match (if truthy_list (quicklinks config)
           then export_quicklinks (items (quicklinks config))
           else []) with
    | [] => f3
    | quicklinks_list =>
        write_bytes f3 (Pathlib.join config_dir "quick_links.json")
          (json_dump w (JObj [("quicklinks", JArr quicklinks_list)]))
    end in
  {| exported_fs := f4;
     env_path := Pathlib.join config_dir (datasource_id ++ ".env");
     env_file := env_content settings datasource_id config
                   icon_light_filename icon_dark_filename |}.



(** ** Predicates used in the statements *)

Definition first_char (s : string) : option ascii :=
  match s with
  | EmptyString => None
  | String c _ => Some c
  end.

(** No two adjacent characters of the class. *)
Fixpoint no_adjacent (p : ascii -> bool) (s : string) : bool :=
  match s with
  | EmptyString => true
  | String a s' =>
      match s' with
      | EmptyString => true
      | String b _ => negb (p a && p b) && no_adjacent p s'
      end
  end.

(** The first, respectively last, character is not of the class. *)
Definition starts_clean (p : ascii -> bool) (s : string) : bool :=
  match first_char s with Some c => negb (p c) | None => true end.

Definition ends_clean (p : ascii -> bool) (s : string) : bool :=
  match Text.last_char s with Some c => negb (p c) | None => true end.


(** What the decoder needs of the character of a sextet: it is not the
    padding character, it maps back to the sextet, and it is an ASCII
    character other than the line feed. *)
Definition faithful (n : N) : bool :=
  negb (Ascii.eqb (Base64.table_b2a n) Base64.pad)
  && match Base64.table_a2b (Base64.table_b2a n) with
     | Some m => N.eqb m n
     | None => false
     end
  && Base64.is_ascii (Base64.table_b2a n)
  && negb (Text.is_char Regex.newline (Base64.table_b2a n)).


(** No ASCII letter and no digit. *)
Definition no_alnum (s : string) : bool :=
  Text.all_chars (fun c => negb (Text.is_alnum c)) s.

(** The same settings with another home URL. *)
Definition with_home_url (s : DatasourceSettings) (home : string)
  : DatasourceSettings :=
  {| glean_indexing_api_key := glean_indexing_api_key s;
     glean_instance_name := glean_instance_name s;
     glean_datasource_display_name := glean_datasource_display_name s;
     glean_datasource_id := glean_datasource_id s;
     glean_datasource_category := glean_datasource_category s;
     glean_datasource_home_url := home;
     glean_datasource_url_regex := glean_datasource_url_regex s;
     glean_datasource_icon_filename_lightmode :=
       glean_datasource_icon_filename_lightmode s;
     glean_datasource_icon_url_lightmode :=
       glean_datasource_icon_url_lightmode s;
     glean_datasource_icon_filename_darkmode :=
       glean_datasource_icon_filename_darkmode s;
     glean_datasource_icon_url_darkmode :=
       glean_datasource_icon_url_darkmode s;
     glean_datasource_user_referenced_by_email :=
       glean_datasource_user_referenced_by_email s;
     glean_datasource_is_test_mode := glean_datasource_is_test_mode s;
     glean_datasource_test_user_emails := glean_datasource_test_user_emails s;
     glean_datasource_suggestion_text := glean_datasource_suggestion_text s |}.

(** The entries of the test-user field: the pieces between commas,
    stripped, the blank ones left out. *)
Definition test_user_entries (s : DatasourceSettings) : list string :=
  map Text.strip
    (filter (fun email => Text.truthy (Text.strip email))
       (Text.split_on comma (glean_datasource_test_user_emails s))).

Definition email_warning (email : string) : string :=
  "Invalid email format: " ++ email ++ " (skipped)".

(** Two worlds that differ at most in what the retrieval returns and in
    the answers to the prompt. *)
Definition same_but_retrieval (w1 w2 : World) : Prop :=
  fs w1 = fs w2
  /\ httpx_get w1 = httpx_get w2
  /\ json_load w1 = json_load w2
  /\ json_dump w1 = json_dump w2
  /\ add w1 = add w2.

(** An auxiliary JSON file that is missing or cannot be parsed. *)
Definition unusable_file (w : World) (path : string) : Prop :=
  fs w path = None
  \/ exists c e, fs w path = Some c /\ json_load w c = Err e.

(** The files that an export into [dir] may write, the env file apart. *)
Definition export_paths (dir : string) : list string :=
  map (Pathlib.join dir)
    ["icon-lightmode.png"; "icon-lightmode.svg"; "icon-darkmode.png";
     "icon-darkmode.svg"; "object_types.json"; "quick_links.json"].










(** * Examples *)

(** A configuration whose URL regex, suggestion text and icon sources
    are all left to their defaults. *)
Definition example_settings : DatasourceSettings :=
  {| glean_indexing_api_key := "secret";
     glean_instance_name := "acme";
     glean_datasource_display_name := "Intranet";
     glean_datasource_id := "intranet";
     glean_datasource_category := KNOWLEDGE_HUB;
     glean_datasource_home_url := "https://app.example.com/dash";
     glean_datasource_url_regex := None;
     glean_datasource_icon_filename_lightmode := None;
     glean_datasource_icon_url_lightmode := None;
     glean_datasource_icon_filename_darkmode := None;
     glean_datasource_icon_url_darkmode := None;
     glean_datasource_user_referenced_by_email := true;
     glean_datasource_is_test_mode := true;
     glean_datasource_test_user_emails := "a@b.com, not-an-email, c@d.co";
     glean_datasource_suggestion_text := None |}.



Definition png_bytes : list Byte.byte :=
  [Byte.x89; Byte.x50; Byte.x4e; Byte.x47].

Definition jpeg_bytes : list Byte.byte := [Byte.xff; Byte.xd8].

(** A world with the default light icon in the current directory, no
    network, and a remote side whose retrieval always raises. *)
Definition offline_world : World :=
  {| fs := fun p =>
       if String.eqb p "icon-lightmode.png" then Some png_bytes else None;
     httpx_get := fun _ => Err (Exn OtherException "connection refused");
     json_load := fun _ => Err (Exn ValueError "Expecting value");
     json_dump := fun _ => [];
     retrieve_config := fun _ => Err (Exn OtherException "404 Not Found");
     add := fun _ => Ok tt;
     Confirm_ask := fun _ => false |}.

(** A world whose only icon file is a JPEG, and whose web server answers
    every request with a JPEG. *)
Definition jpeg_world : World :=
  {| fs := fun p => if String.eqb p "logo.jpg" then Some jpeg_bytes else None;
     httpx_get := fun _ =>
       Ok {| raise_for_status := Ok tt;
             header_content_type := Some "image/jpeg";
             content := jpeg_bytes |};
     json_load := fun _ => Err (Exn ValueError "Expecting value");
     json_dump := fun _ => [];
     retrieve_config := fun _ => Err (Exn OtherException "404 Not Found");
     add := fun _ => Ok tt;
     Confirm_ask := fun _ => false |}.

Definition with_icons (s : DatasourceSettings)
           (light_file light_url dark_file dark_url : option string)
  : DatasourceSettings :=
  {| glean_indexing_api_key := glean_indexing_api_key s;
     glean_instance_name := glean_instance_name s;
     glean_datasource_display_name := glean_datasource_display_name s;
     glean_datasource_id := glean_datasource_id s;
     glean_datasource_category := glean_datasource_category s;
     glean_datasource_home_url := glean_datasource_home_url s;
     glean_datasource_url_regex := glean_datasource_url_regex s;
     glean_datasource_icon_filename_lightmode := light_file;
     glean_datasource_icon_url_lightmode := light_url;
     glean_datasource_icon_filename_darkmode := dark_file;
     glean_datasource_icon_url_darkmode := dark_url;
     glean_datasource_user_referenced_by_email :=
       glean_datasource_user_referenced_by_email s;
     glean_datasource_is_test_mode := glean_datasource_is_test_mode s;
     glean_datasource_test_user_emails := glean_datasource_test_user_emails s;
     glean_datasource_suggestion_text := glean_datasource_suggestion_text s |}.

(** The light icon is the existing file [logo.jpg]. *)
Definition jpeg_file_settings : DatasourceSettings :=
  with_icons example_settings (Some "logo.jpg") None None None.

(** The light icon is fetched from a URL that serves a JPEG. *)
Definition jpeg_url_settings : DatasourceSettings :=
  with_icons example_settings None (Some "https://cdn.example.com/logo.jpg")
    None None.

(** The light icon is a file that does not exist. *)
Definition missing_file_settings : DatasourceSettings :=
  with_icons example_settings (Some "missing.png") None None None.

(** A file system whose only file is an empty [icon.png]. *)
Definition empty_icon_fs : filesystem :=
  fun p => if String.eqb p "icon.png" then Some [] else None.

(** A file system whose only file is a small [icon.PNG]. *)
Definition one_icon_fs : filesystem :=
  fun p => if String.eqb p "icon.PNG" then Some png_bytes else None.

Definition no_files : filesystem := fun _ => None.



(** The remote side after a first push from [offline_world]: the record
    is found, and the user would decline to overwrite it. *)
Definition found_world : World :=
  {| fs := fs offline_world;
     httpx_get := httpx_get offline_world;
     json_load := json_load offline_world;
     json_dump := json_dump offline_world;
     retrieve_config := fun _ =>
       Ok (add_called_with
             (create_datasource offline_world example_settings false));
     add := add offline_world;
     Confirm_ask := fun _ => false |}.

(** A world whose [object_types.json] holds one object without a name. *)
Definition nameless_object_world : World :=
  {| fs := fun p =>
       if String.eqb p "object_types.json" then Some []
       else fs offline_world p;
     httpx_get := httpx_get offline_world;
     json_load := fun _ =>
       Ok (JObj [("objectTypes",
                  JArr [JObj [("display_label", JStr "Ticket")]])]);
     json_dump := json_dump offline_world;
     retrieve_config := retrieve_config offline_world;
     add := add offline_world;
     Confirm_ask := Confirm_ask offline_world |}.

(** A remote record without a light icon, with a JPEG as its dark icon. *)
Definition iconless_record : CustomDatasourceConfig :=
  {| name := "intranet";
     display_name := Some "Intranet";
     datasource_category := Some (GleanCategory KNOWLEDGE_HUB);
     url_regex_field := Some "https://app.example.com/.*";
     icon_url_field := None;
     icon_dark_url_field := Some "data:image/jpeg;base64,/9g=";
     home_url := Some "https://app.example.com";
     suggestion_text_field := None;
     object_definitions_field := None;
     quicklinks := None;
     is_user_referenced_by_email := Some true;
     is_test_datasource := Some false;
     trust_url_regex_for_view_activity := Some true;
     strip_fragment_in_canonical_url := Some true;
     is_entity_datasource := Some false |}.


(** * Properties *)

Unset Implicit Arguments.

(** ** Regular expressions: the matcher decides the denotation *)

Section RegexFacts.

Import Regex.

Lemma append_empty_inv (s1 s2 : string) :
  s1 ++ s2 = "" -> s1 = "" /\ s2 = "".
Proof.
  destruct s1; simpl; intros H; [split; [reflexivity | exact H] | discriminate].
Qed.

Lemma append_nil_r (s : string) : s ++ "" = s.
Proof.
  induction s as [| c s IH]; simpl; [reflexivity | now rewrite IH].
Qed.

Lemma append_assoc (s1 s2 s3 : string) : (s1 ++ s2) ++ s3 = s1 ++ (s2 ++ s3).
Proof.
  induction s1 as [| c s1 IH]; simpl; [reflexivity | now rewrite IH].
Qed.

Lemma nullable_complete (r : regex) (s : string) :
  lang r s -> s = "" -> nullable r = true.
Proof.
  induction 1 as [| p c Hp | r1 r2 s1 s2 _ IH1 _ IH2 | r1 r2 s _ IH
                  | r1 r2 s _ IH | r | r s1 s2 _ _ _ _]; intros E; simpl;
    try reflexivity.
  - discriminate.
  - apply append_empty_inv in E as [E1 E2].
    now rewrite (IH1 E1), (IH2 E2).
  - now rewrite (IH E).
  - rewrite (IH E). apply orb_true_r.
Qed.

Lemma nullable_sound (r : regex) : nullable r = true -> lang r "".
Proof.
  induction r as [| | p | r1 IH1 r2 IH2 | r1 IH1 r2 IH2 | r IH]; simpl;
    intros H; try discriminate.
  - constructor.
  - apply andb_true_iff in H as [H1 H2].
    change "" with ("" ++ ""). constructor; auto.
  - apply orb_true_iff in H as [H | H];
      [apply lang_alt_l | apply lang_alt_r]; auto.
  - constructor.
Qed.

Lemma deriv_complete (r : regex) (t : string) :
  lang r t -> forall c s, t = String c s -> lang (deriv r c) s.
Proof.
  induction 1 as [| p c0 Hp | r1 r2 s1 s2 H1 IH1 H2 IH2 | r1 r2 s0 _ IH
                  | r1 r2 s0 _ IH | r | r s1 s2 H1 IH1 H2 IH2];
    intros c s E; simpl.
  - discriminate.
  - injection E as -> <-. rewrite Hp. constructor.
  - destruct s1 as [| a s1'].
    + simpl in E. rewrite (nullable_complete _ _ H1 eq_refl).
      apply lang_alt_r. now apply IH2.
    + simpl in E. injection E as -> <-.
      pose proof (lang_cat (IH1 _ _ eq_refl) H2) as Hc.
      destruct (nullable r1); [apply lang_alt_l |]; exact Hc.
  - apply lang_alt_l. now apply IH.
  - apply lang_alt_r. now apply IH.
  - discriminate.
  - destruct s1 as [| a s1'].
    + simpl in E. apply (IH2 _ _ E).
    + simpl in E. injection E as -> <-.
      exact (lang_cat (IH1 _ _ eq_refl) H2).
Qed.

Lemma deriv_sound (r : regex) :
  forall c s, lang (deriv r c) s -> lang r (String c s).
Proof.
  induction r as [| | p | r1 IH1 r2 IH2 | r1 IH1 r2 IH2 | r IH];
    intros c s H; simpl in H.
  - inversion H.
  - inversion H.
  - destruct (p c) eqn:Hp; inversion H; subst. now constructor.
  - assert (Hcat : forall t, lang (Cat (deriv r1 c) r2) t ->
                             lang (Cat r1 r2) (String c t)).
    { intros t Ht. inversion Ht; subst.
      change (String c (s1 ++ s2)) with (String c s1 ++ s2).
      constructor; auto. }
    destruct (nullable r1) eqn:Hn.
    + inversion H; subst.
      * now apply Hcat.
      * change (String c s) with ("" ++ String c s).
        constructor; [now apply nullable_sound | now apply IH2].
    + now apply Hcat.
  - inversion H; subst; [apply lang_alt_l | apply lang_alt_r]; auto.
  - inversion H; subst.
    change (String c (s1 ++ s2)) with (String c s1 ++ s2).
    constructor; auto.
Qed.

Lemma fullmatch_lang (s : string) :
  forall r, fullmatch r s = true <-> lang r s.
Proof.
  induction s as [| c s IH]; intros r; simpl.
  - split; [apply nullable_sound | intros H; exact (nullable_complete _ _ H eq_refl)].
  - rewrite IH. split; [apply deriv_sound | intros H; exact (deriv_complete _ _ H _ _ eq_refl)].
Qed.

Lemma lang_star_class (p : ascii -> bool) (s : string) :
  Text.all_chars p s = true -> lang (Star (Cls p)) s.
Proof.
  induction s as [| c s IH]; simpl; intros H.
  - constructor.
  - apply andb_true_iff in H as [Hc Hs].
    change (String c s) with (String c "" ++ s).
    constructor; [now constructor | auto].
Qed.

Lemma lang_plus_class (p : ascii -> bool) (s : string) :
  s <> "" -> Text.all_chars p s = true -> lang (Plus (Cls p)) s.
Proof.
  destruct s as [| c s]; [congruence |]. simpl. intros _ H.
  apply andb_true_iff in H as [Hc Hs].
  change (String c s) with (String c "" ++ s).
  constructor; [now constructor | now apply lang_star_class].
Qed.

End RegexFacts.

(** ** Text *)

Section TextFacts.

Import Text.

Lemma all_chars_impl (p q : ascii -> bool) (s : string) :
  (forall c, p c = true -> q c = true) ->
  all_chars p s = true -> all_chars q s = true.
Proof.
  intros Hpq. induction s as [| c s IH]; simpl; [reflexivity |].
  intros H. apply andb_true_iff in H as [Hc Hs].
  now rewrite (Hpq _ Hc), (IH Hs).
Qed.

Lemma all_chars_app (p : ascii -> bool) (s t : string) :
  all_chars p (s ++ t) = all_chars p s && all_chars p t.
Proof.
  induction s as [| c s IH]; simpl; [reflexivity |].
  now rewrite IH, andb_assoc.
Qed.

Lemma re_sub_class_empty_all (cls : ascii -> bool) (s : string) :
  all_chars (fun c => negb (cls c)) (re_sub_class_empty cls s) = true.
Proof.
  induction s as [| c s IH]; simpl; [reflexivity |].
  destruct (cls c) eqn:E; simpl; [exact IH | now rewrite E, IH].
Qed.

Lemma re_sub_runs_all (cls q r : ascii -> bool) (repl : string) :
  (forall c, q c = true -> cls c = false -> r c = true) ->
  all_chars r repl = true ->
  forall s b, all_chars q s = true ->
              all_chars r (re_sub_runs cls repl b s) = true.
Proof.
  intros Hq Hrepl. induction s as [| c s IH]; intros b H; simpl;
    [reflexivity |].
  simpl in H. apply andb_true_iff in H as [Hc Hs].
  destruct (cls c) eqn:E.
  - destruct b; [now apply IH |].
    rewrite all_chars_app, Hrepl. now apply IH.
  - simpl. now rewrite (Hq _ Hc E), IH.
Qed.

(** Collapsing the runs of one character leaves no two of them adjacent;
    inside a run nothing of the class is emitted first. *)
Lemma re_sub_runs_collapse (x : ascii) (s : string) :
  forall b,
    no_adjacent (is_char x) (re_sub_runs (is_char x) (String x "") b s) = true
    /\ (b = true ->
        starts_clean (is_char x)
          (re_sub_runs (is_char x) (String x "") b s) = true).
Proof.
  induction s as [| c s IH]; intros b; simpl; [split; reflexivity |].
  destruct (is_char x c) eqn:E.
  - destruct b.
    + apply IH.
    + destruct (IH true) as [Hn Hs]. specialize (Hs eq_refl).
      split; [| discriminate]. simpl.
      destruct (re_sub_runs (is_char x) (String x "") true s) as [| a t] eqn:R;
        [reflexivity |].
      unfold starts_clean in Hs. simpl in Hs.
      apply negb_true_iff in Hs. rewrite Hs, andb_false_r. exact Hn.
  - destruct (IH false) as [Hn _]. split.
    + simpl.
      destruct (re_sub_runs (is_char x) (String x "") false s) as [| a t] eqn:R;
        [reflexivity |].
      rewrite E. exact Hn.
    + intros _. unfold starts_clean. simpl. now rewrite E.
Qed.

Lemma no_adjacent_tail (p : ascii -> bool) (c : ascii) (s : string) :
  no_adjacent p (String c s) = true -> no_adjacent p s = true.
Proof.
  simpl. destruct s as [| b t]; [reflexivity |].
  intros H. now apply andb_true_iff in H as [_ H].
Qed.

Lemma lstrip_all (p q : ascii -> bool) (s : string) :
  all_chars q s = true -> all_chars q (lstrip p s) = true.
Proof.
  induction s as [| c s IH]; simpl; [reflexivity |].
  intros H. destruct (p c); [| exact H].
  apply andb_true_iff in H as [_ H]. now apply IH.
Qed.

Lemma lstrip_no_adjacent (p q : ascii -> bool) (s : string) :
  no_adjacent q s = true -> no_adjacent q (lstrip p s) = true.
Proof.
  induction s as [| c s IH]; [reflexivity |].
  intros H. cbn [lstrip]. destruct (p c); [| exact H].
  apply IH. exact (no_adjacent_tail _ _ _ H).
Qed.

Lemma lstrip_starts_clean (p : ascii -> bool) (s : string) :
  starts_clean p (lstrip p s) = true.
Proof.
  induction s as [| c s IH]; simpl; [reflexivity |].
  destruct (p c) eqn:E; [exact IH |].
  unfold starts_clean. simpl. now rewrite E.
Qed.

Lemma rstrip_all (p q : ascii -> bool) (s : string) :
  all_chars q s = true -> all_chars q (rstrip p s) = true.
Proof.
  induction s as [| c s IH]; simpl; [reflexivity |].
  intros H. apply andb_true_iff in H as [Hc Hs].
  destruct (is_empty (rstrip p s) && p c); simpl; [reflexivity |].
  now rewrite Hc, IH.
Qed.

Lemma rstrip_no_adjacent (p q : ascii -> bool) (s : string) :
  no_adjacent q s = true -> no_adjacent q (rstrip p s) = true.
Proof.
  induction s as [| c s IH]; [reflexivity |].
  intros H. cbn [rstrip].
  pose proof (IH (no_adjacent_tail _ _ _ H)) as IH'.
  destruct (is_empty (rstrip p s) && p c); [reflexivity |].
  destruct s as [| b t]; [reflexivity |].
  cbn [rstrip] in *.
  destruct (is_empty (rstrip p t) && p b); [reflexivity |].
  simpl in H. apply andb_true_iff in H as [Hab _].
  change (negb (q c && q b) && no_adjacent q (String b (rstrip p t)) = true).
  now rewrite Hab, IH'.
Qed.

Lemma rstrip_starts_clean (p q : ascii -> bool) (s : string) :
  starts_clean q s = true -> starts_clean q (rstrip p s) = true.
Proof.
  destruct s as [| c s]; [reflexivity |]. cbn [rstrip].
  destruct (is_empty (rstrip p s) && p c); [reflexivity | exact (fun H => H)].
Qed.

Lemma rstrip_ends_clean (p : ascii -> bool) (s : string) :
  ends_clean p (rstrip p s) = true.
Proof.
  unfold ends_clean. induction s as [| c s IH]; [reflexivity |].
  cbn [rstrip].
  destruct (rstrip p s) as [| b t] eqn:R; simpl.
  - destruct (p c) eqn:E; simpl; [reflexivity | now rewrite E].
  - exact IH.
Qed.

Lemma lower_all (p q : ascii -> bool) (s : string) :
  (forall c, p c = true -> q (lower_char c) = true) ->
  all_chars p s = true -> all_chars q (lower s) = true.
Proof.
  intros Hpq. induction s as [| c s IH]; simpl; [reflexivity |].
  intros H. apply andb_true_iff in H as [Hc Hs].
  now rewrite (Hpq _ Hc), (IH Hs).
Qed.

Lemma lower_no_adjacent (p : ascii -> bool) (s : string) :
  (forall c, p (lower_char c) = p c) ->
  no_adjacent p (lower s) = no_adjacent p s.
Proof.
  intros Hp. induction s as [| c s IH]; [reflexivity |].
  destruct s as [| b t]; [reflexivity |].
  change (negb (p (lower_char c) && p (lower_char b))
          && no_adjacent p (lower (String b t))
          = negb (p c && p b) && no_adjacent p (String b t)).
  now rewrite IH, !Hp.
Qed.

Lemma lower_starts_clean (p : ascii -> bool) (s : string) :
  (forall c, p (lower_char c) = p c) ->
  starts_clean p (lower s) = starts_clean p s.
Proof.
  intros Hp. destruct s as [| c s]; [reflexivity |].
  unfold starts_clean. simpl. now rewrite Hp.
Qed.

Lemma last_char_lower (s : string) :
  last_char (lower s) = option_map lower_char (last_char s).
Proof.
  induction s as [| c s IH]; [reflexivity |].
  destruct s as [| b t]; [reflexivity |].
  exact IH.
Qed.

Lemma lower_ends_clean (p : ascii -> bool) (s : string) :
  (forall c, p (lower_char c) = p c) ->
  ends_clean p (lower s) = ends_clean p s.
Proof.
  intros Hp. unfold ends_clean. rewrite last_char_lower.
  destruct (last_char s); simpl; [now rewrite Hp | reflexivity].
Qed.

(** A property of every character, checked on the 256 characters. *)
Lemma forall_ascii (P : ascii -> bool) :
  (forall b0 b1 b2 b3 b4 b5 b6 b7,
      P (Ascii b0 b1 b2 b3 b4 b5 b6 b7) = true) ->
  forall c, P c = true.
Proof.
  intros H [b0 b1 b2 b3 b4 b5 b6 b7]. apply H.
Qed.

Ltac by_cases_on_ascii :=
  apply forall_ascii;
  intros [] [] [] [] [] [] [] []; vm_compute; reflexivity.

Lemma lower_char_slug (c : ascii) :
  implb (is_alnum c || is_char hyphen c) (slug_class (lower_char c)) = true.
Proof.
  revert c. by_cases_on_ascii.
Qed.

Lemma lower_char_hyphen (c : ascii) :
  Bool.eqb (is_char hyphen (lower_char c)) (is_char hyphen c) = true.
Proof.
  revert c. by_cases_on_ascii.
Qed.

Lemma keep_class_split (c : ascii) :
  implb (negb (negb (is_alnum c || is_space c || is_char hyphen c)))
        (implb (negb (is_space c)) (is_alnum c || is_char hyphen c)) = true.
Proof.
  revert c. by_cases_on_ascii.
Qed.

End TextFacts.

(** ** [normalize_datasource_id] *)

Section NormalizeFacts.

Import Text.

Lemma is_char_sym (x c : ascii) : Ascii.eqb x c = is_char x c.
Proof.
  unfold is_char. apply Ascii.eqb_sym.
Qed.

Lemma starts_clean_startswith (x : ascii) (s : string) :
  starts_clean (is_char x) s = true -> startswith (String x "") s = false.
Proof.
  destruct s as [| c s]; [reflexivity |].
  unfold starts_clean. simpl. rewrite is_char_sym.
  intros H. apply negb_true_iff in H. now rewrite H.
Qed.

Lemma ends_clean_last_char (x : ascii) (s : string) :
  ends_clean (is_char x) s = true -> last_char s <> Some x.
Proof.
  unfold ends_clean. intros H E. rewrite E in H.
  unfold is_char in H. now rewrite Ascii.eqb_refl in H.
Qed.

Lemma no_adjacent_contains (x : ascii) (s : string) :
  no_adjacent (is_char x) s = true ->
  contains (String x (String x "")) s = false.
Proof.
  induction s as [| a s IH]; [reflexivity |].
  intros H. pose proof (IH (no_adjacent_tail _ _ _ H)) as IH'.
  cbn [contains]. rewrite IH', orb_false_r.
  destruct s as [| b t]; simpl; [now rewrite andb_false_r |].
  simpl in H. apply andb_true_iff in H as [Hab _].
  apply negb_true_iff in Hab. rewrite !is_char_sym, andb_true_r.
  exact Hab.
Qed.

(** C10. For every display name, [normalize_datasource_id] returns a text
    made only of lower-case letters, digits and hyphens, that neither
    starts nor ends with a hyphen and contains no two hyphens in a row;
    when it is not empty it satisfies the pattern [^[a-z0-9-]+$] of the
    field [glean_datasource_id], both as the field constraint and under
    [re.match]. *)
Theorem normalize_datasource_id_well_formed (display_name : string) :
  let id := normalize_datasource_id display_name in
  all_chars slug_class id = true
  /\ startswith "-" id = false
  /\ last_char id <> Some hyphen
  /\ contains "--" id = false
  /\ (id <> "" ->
      field_datasource_id id = Ok id
      /\ Regex.match_anchored datasource_id_pattern id = true).
Proof.
  intros id. unfold normalize_datasource_id in id.
  set (keep := fun c => negb (is_alnum c || is_space c || is_char hyphen c))
    in id.
  set (s1 := re_sub_class_empty keep display_name) in id.
  set (s2 := re_sub_class_plus is_space "-" s1) in id.
  set (s3 := re_sub_class_plus (is_char hyphen) "-" s2) in id.
  set (word := fun c => is_alnum c || is_char hyphen c).
  assert (H1 : all_chars (fun c => negb (keep c)) s1 = true)
    by apply re_sub_class_empty_all.
  assert (H2 : all_chars word s2 = true).
  { unfold s2, re_sub_class_plus.
    apply re_sub_runs_all with (q := fun c => negb (keep c));
      [| reflexivity | exact H1].
    intros c Hk Hs. pose proof (keep_class_split c) as K.
    unfold keep in Hk. rewrite Hk in K. simpl in K.
    rewrite Hs in K. exact K. }
  assert (H3 : all_chars word s3 = true).
  { unfold s3, re_sub_class_plus.
    apply re_sub_runs_all with (q := word); [| reflexivity | exact H2].
    intros c Hw Hh. unfold word in *. now rewrite Hh, orb_false_r in *. }
  assert (N3 : no_adjacent (is_char hyphen) s3 = true)
    by apply (re_sub_runs_collapse hyphen s2 false).
  assert (Hlow : forall c, is_char hyphen (lower_char c) = is_char hyphen c).
  { intros c. apply Bool.eqb_prop, lower_char_hyphen. }
  assert (A : all_chars slug_class id = true).
  { unfold id, strip_chars.
    apply lower_all with (p := word); [| now apply rstrip_all, lstrip_all].
    intros c Hw. pose proof (lower_char_slug c) as K.
    unfold word in Hw. now rewrite Hw in K. }
  assert (S : starts_clean (is_char hyphen) id = true).
  { unfold id, strip_chars. rewrite (lower_starts_clean _ _ Hlow).
    apply rstrip_starts_clean, lstrip_starts_clean. }
  assert (E : ends_clean (is_char hyphen) id = true).
  { unfold id, strip_chars. rewrite (lower_ends_clean _ _ Hlow).
    apply rstrip_ends_clean. }
  assert (N : no_adjacent (is_char hyphen) id = true).
  { unfold id, strip_chars. rewrite (lower_no_adjacent _ _ Hlow).
    now apply rstrip_no_adjacent, lstrip_no_adjacent. }
  split; [exact A |].
  split; [now apply starts_clean_startswith |].
  split; [now apply ends_clean_last_char |].
  split; [now apply no_adjacent_contains |].
  intros Hne.
  pose proof (lang_plus_class slug_class id Hne A) as L.
  split.
  - unfold field_datasource_id, datasource_id_pattern.
    now rewrite (proj2 (fullmatch_lang id _) L).
  - unfold Regex.match_anchored, datasource_id_pattern.
    apply fullmatch_lang. rewrite <- (append_nil_r id).
    constructor; [exact L |]. apply Regex.lang_alt_l. constructor.
Qed.

End NormalizeFacts.

(** ** Assembly of the settings *)

Section AssemblyFacts.

Import Text.

Lemma lstrip_id (p : ascii -> bool) (s : string) :
  starts_clean p s = true -> lstrip p s = s.
Proof.
  destruct s as [| c s]; [reflexivity |].
  unfold starts_clean. simpl. intros H.
  apply negb_true_iff in H. now rewrite H.
Qed.

Lemma rstrip_id (p : ascii -> bool) (s : string) :
  ends_clean p s = true -> rstrip p s = s.
Proof.
  unfold ends_clean. induction s as [| c s IH]; [reflexivity |].
  cbn [rstrip]. destruct s as [| b t].
  - simpl. intros H. apply negb_true_iff in H. now rewrite H.
  - intros H. rewrite (IH H). reflexivity.
Qed.

Lemma strip_id (s : string) :
  starts_clean is_space s = true -> ends_clean is_space s = true ->
  strip s = s.
Proof.
  intros Hs He. unfold strip, strip_chars.
  rewrite (lstrip_id _ _ Hs). now apply rstrip_id.
Qed.


Lemma field_display_name_accepts (d : string) :
  String.length d <= 50 ->
  starts_clean is_space d = true ->
  ends_clean is_space d = true ->
  ends_clean (one_of display_name_symbols) d = true ->
  field_display_name d = Ok d.
Proof.
  intros Hlen Hs He Hsym. unfold field_display_name.
  destruct (Nat.ltb_spec 50 (String.length d)) as [Hgt | _]; [lia |].
  unfold validate_display_name.
  rewrite (strip_id _ Hs He), String.eqb_refl. cbn [negb].
  unfold ends_clean in Hsym.
  destruct (last_char d) as [c |]; [| reflexivity].
  apply negb_true_iff in Hsym. now rewrite Hsym.
Qed.






End AssemblyFacts.

(** ** Resolved fields: URL regex and test users *)

Section ResolvedFields.

Import Text.

(** C2, as the program has it. With no URL regex of its own, a
    configuration whose home URL is [https://app.example.com/dash]
    resolves its URL regex to [https://app.example.com/dash/.*]: the
    default is the whole home URL without its trailing slashes, followed
    by [/.*]; the path of the home URL is kept. *)
Theorem url_regex_default (s : DatasourceSettings) :
  glean_datasource_home_url s = "https://app.example.com/dash" ->
  truthy_opt (glean_datasource_url_regex s) = false ->
  url_regex s = "https://app.example.com/dash/.*"
  /\ url_regex s
     = rstrip (is_char Pathlib.slash) (glean_datasource_home_url s) ++ "/.*".
Proof.
  intros Hhome Hnone. unfold url_regex. rewrite Hnone, Hhome.
  split; reflexivity.
Qed.

Lemma url_regex_default_witness :
  url_regex example_settings = "https://app.example.com/dash/.*"
  /\ url_regex example_settings
     = rstrip (is_char Pathlib.slash)
         (glean_datasource_home_url example_settings) ++ "/.*".
Proof.
  apply (url_regex_default example_settings); reflexivity.
Defined.

(** C2, as stated, fails: the resolved URL regex of that configuration is
    not [https://app.example.com/.*]. *)
Lemma url_regex_default_keeps_path :
  ~ (forall s : DatasourceSettings,
        glean_datasource_home_url s = "https://app.example.com/dash" ->
        glean_datasource_url_regex s = None ->
        url_regex s = "https://app.example.com/.*").
Proof.
  intros H. specialize (H example_settings eq_refl eq_refl).
  vm_compute in H. discriminate H.
Qed.

Lemma validate_emails_spec (emails : list string) :
  Forall (fun m => Regex.match_anchored email_pattern m = true)
    (fst (validate_emails emails))
  /\ forall email, In email emails ->
       (Regex.match_anchored email_pattern email = true
        /\ In email (fst (validate_emails emails)))
       \/ (Regex.match_anchored email_pattern email = false
           /\ In ("Invalid email format: " ++ email ++ " (skipped)")
                (snd (validate_emails emails))).
Proof.
  induction emails as [| m rest [IHv IHe]]; cbn [validate_emails].
  - split; [constructor | intros email []].
  - destruct (validate_emails rest) as [valid warnings] eqn:R.
    destruct (Regex.match_anchored email_pattern m) eqn:M; cbn [fst snd] in *.
    + split; [constructor; assumption |].
      intros email [<- | Hin]; [left; split; [exact M | now left] |].
      destruct (IHe email Hin) as [[H1 H2] | [H1 H2]];
        [left; split; [exact H1 | now right] | right; split; assumption].
    + split; [exact IHv |].
      intros email [<- | Hin]; [right; split; [exact M | now left] |].
      destruct (IHe email Hin) as [[H1 H2] | [H1 H2]];
        [left; split; assumption | right; split; [exact H1 | now right]].
Qed.

Lemma not_truthy_empty (s : string) : truthy s = false -> s = "".
Proof.
  destruct s; [reflexivity | discriminate].
Qed.

(** C8. The input [a@b.com, not-an-email, c@d.co] resolves to exactly the
    two valid addresses, with one warning for the entry dropped. In
    general the resolution returns a list for every input: each address
    kept matches the e-mail pattern, and each non-blank entry between
    commas is, once stripped, either kept or dropped with a warning that
    quotes it. *)
Theorem test_email_filtering (s : DatasourceSettings) :
  (glean_datasource_test_user_emails s = "a@b.com, not-an-email, c@d.co" ->
   test_user_emails_list s
   = (["a@b.com"; "c@d.co"],
      ["Invalid email format: not-an-email (skipped)"]))
  /\ Forall (fun m => Regex.match_anchored email_pattern m = true)
       (fst (test_user_emails_list s))
  /\ (forall piece,
         In piece (split_on comma (glean_datasource_test_user_emails s)) ->
         strip piece <> "" ->
         (Regex.match_anchored email_pattern (strip piece) = true
          /\ In (strip piece) (fst (test_user_emails_list s)))
         \/ (Regex.match_anchored email_pattern (strip piece) = false
             /\ ~ In (strip piece) (fst (test_user_emails_list s))
             /\ In ("Invalid email format: " ++ strip piece ++ " (skipped)")
                  (snd (test_user_emails_list s)))).
Proof.
  split; [| split].
  - intros E. unfold test_user_emails_list. rewrite E. vm_compute. reflexivity.
  - unfold test_user_emails_list.
    destruct (negb (truthy (glean_datasource_test_user_emails s)));
      [constructor | apply validate_emails_spec].
  - intros piece Hin Hne. unfold test_user_emails_list.
    destruct (truthy (glean_datasource_test_user_emails s)) eqn:T;
      cbn [negb].
    + set (emails := map strip _).
      assert (Hmem : In (strip piece) emails).
      { unfold emails. apply in_map, filter_In. split; [exact Hin |].
        destruct (strip piece); [congruence | reflexivity]. }
      destruct (validate_emails_spec emails) as [Hv He].
      destruct (He _ Hmem) as [[H1 H2] | [H1 H2]]; [left; now split |].
      right. split; [exact H1 | split; [| exact H2]].
      intros Hk. rewrite Forall_forall in Hv.
      rewrite (Hv _ Hk) in H1. discriminate.
    + apply not_truthy_empty in T. rewrite T in Hin.
      destruct Hin as [<- | []]. now elim Hne.
Qed.

Lemma test_email_filtering_witness :
  test_user_emails_list example_settings
  = (["a@b.com"; "c@d.co"], ["Invalid email format: not-an-email (skipped)"])
  /\ (Regex.match_anchored email_pattern (strip " not-an-email") = false
      /\ ~ In (strip " not-an-email")
             (fst (test_user_emails_list example_settings))
      /\ In ("Invalid email format: " ++ strip " not-an-email" ++ " (skipped)")
           (snd (test_user_emails_list example_settings))).
Proof.
  destruct (test_email_filtering example_settings) as [Hex [_ Hall]].
  split; [exact (Hex eq_refl) |].
  destruct (Hall " not-an-email") as [[Hm _] | Hdrop].
  - vm_compute. tauto.
  - vm_compute. discriminate.
  - vm_compute in Hm. discriminate Hm.
  - exact Hdrop.
Defined.

End ResolvedFields.

(** ** Icon resolution *)

Section IconFacts.

Import Text.

Lemma startswith_app (s t : string) : startswith s (s ++ t) = true.
Proof.
  induction s as [| c s IH]; simpl; [reflexivity |].
  now rewrite Ascii.eqb_refl, IH.
Qed.

Lemma contains_app (sub pre t : string) :
  contains sub (pre ++ sub ++ t) = true.
Proof.
  induction pre as [| c pre IH].
  - simpl. destruct (sub ++ t) eqn:E; cbn [contains];
      rewrite <- E, startswith_app; reflexivity.
  - cbn [append contains]. rewrite IH. apply orb_true_r.
Qed.

Lemma contains_suffix (sub pre : string) : contains sub (pre ++ sub) = true.
Proof.
  rewrite <- (append_nil_r sub) at 2. apply contains_app.
Qed.





Lemma download_icon_error (w : World) (url : string) (e : exn) :
  download_icon w url = Err e ->
  exn_kind e = ValueError /\ contains url (exn_msg e) = true.
Proof.
  unfold download_icon, raise.
  destruct (download_icon_body w url) as [v | e0]; [discriminate |].
  intros [= <-]. split; [reflexivity |].
  exact (contains_app url "Failed to download icon from "
           (": " ++ exn_msg e0)).
Qed.






End IconFacts.

(** ** The fallback chains and the push path *)

Section PushFacts.

Import Text.

Lemma bind_ok {A B : Type} (r : result A) (k : A -> result B) (b : B) :
  bind r k = Ok b -> exists a, r = Ok a /\ k a = Ok b.
Proof.
  destruct r as [a | e]; simpl; [intros H; now exists a | discriminate].
Qed.

Ltac invert_bind H :=
  let a := fresh "a" in
  let Ha := fresh "Ha" in
  apply bind_ok in H as [a [Ha H]].

(** A request that was prepared carries the resolved values of the
    settings it was prepared from. *)
Lemma prepare_request_fields (w : World) (s : DatasourceSettings)
      (request : CustomDatasourceConfig) :
  prepare_request w s = Ok request ->
  name request = glean_datasource_id s
  /\ display_name request = Some (glean_datasource_display_name s)
  /\ datasource_category request
     = Some (GleanCategory (glean_datasource_category s))
  /\ url_regex_field request = Some (url_regex s)
  /\ home_url request = Some (glean_datasource_home_url s)
  /\ suggestion_text_field request = Some (suggestion_text s)
  /\ is_user_referenced_by_email request
     = Some (glean_datasource_user_referenced_by_email s)
  /\ is_test_datasource request = Some (glean_datasource_is_test_mode s)
  /\ Some (icon_url w s) = option_map Ok (icon_url_field request)
  /\ Some (icon_dark_url w s) = option_map Ok (icon_dark_url_field request).
Proof.
  unfold prepare_request. intros H.
  do 6 invert_bind H. injection H as <-. cbn.
  repeat split; try (f_equal; assumption).
  destruct (glean_datasource_category s); reflexivity.
Qed.

(** C5. When no dark file, no dark URL and no default dark-mode file is
    there, and the light icon resolves to [X], the dark icon resolves to
    the same [X]; the request prepared for the remote side then carries
    [X] as its dark icon. *)
Theorem dark_icon_falls_back_to_light
        (w : World) (s : DatasourceSettings) (X : string) :
  truthy_opt (glean_datasource_icon_filename_darkmode s) = false ->
  truthy_opt (glean_datasource_icon_url_darkmode s) = false ->
  exists_ (fs w) (Pathlib.Path "icon-darkmode.png") = false ->
  icon_url w s = Ok X ->
  icon_dark_url w s = Ok X
  /\ forall request,
       prepare_request w s = Ok request ->
       icon_dark_url_field request = Some X.
Proof.
  intros Hfile Hurl Hdefault Hlight.
  assert (Hdark : icon_dark_url w s = Ok X).
  { unfold icon_dark_url. now rewrite Hfile, Hurl, Hdefault, Hlight. }
  split; [exact Hdark |].
  intros request Hreq.
  destruct (prepare_request_fields _ _ _ Hreq)
    as (_ & _ & _ & _ & _ & _ & _ & _ & _ & Hd).
  rewrite Hdark in Hd.
  destruct (icon_dark_url_field request); [| discriminate].
  now injection Hd as <-.
Qed.

Lemma dark_icon_falls_back_to_light_witness :
  icon_dark_url offline_world example_settings
  = Ok "data:image/png;base64,iVBORw=="
  /\ forall request,
       prepare_request offline_world example_settings = Ok request ->
       icon_dark_url_field request = Some "data:image/png;base64,iVBORw==".
Proof.
  apply (dark_icon_falls_back_to_light offline_world example_settings);
    vm_compute; reflexivity.
Defined.

(** C6, as the program has it. In both icon chains a configured file is
    decisive: when it does not exist the resolution fails with an error
    that names the file, and when it exists the result is that of
    reading this file, a failure included. With no file configured, a
    configured URL is decisive: the result is that of the download, and
    its failure is an error that names the URL. No later candidate is
    tried in either case. An existing file with an unsupported extension
    fails with an error that names the extension. *)
Theorem icon_chain_fails_fast (w : World) (s : DatasourceSettings) :
  (forall file,
      glean_datasource_icon_filename_lightmode s = Some file ->
      truthy file = true ->
      (exists_ (fs w) (Pathlib.Path file) = false ->
       icon_url w s = raise ValueError ("Icon file not found: " ++ file)
       /\ contains file ("Icon file not found: " ++ file) = true)
      /\ (exists_ (fs w) (Pathlib.Path file) = true ->
          icon_url w s = get_icon_as_data_url (fs w) (Pathlib.Path file)))
  /\ (forall url,
         truthy_opt (glean_datasource_icon_filename_lightmode s) = false ->
         glean_datasource_icon_url_lightmode s = Some url ->
         truthy url = true ->
         icon_url w s = download_icon w url
         /\ forall e, download_icon w url = Err e ->
                      exn_kind e = ValueError
                      /\ contains url (exn_msg e) = true)
  /\ (forall file,
         glean_datasource_icon_filename_darkmode s = Some file ->
         truthy file = true ->
         (exists_ (fs w) (Pathlib.Path file) = false ->
          icon_dark_url w s
          = raise ValueError ("Icon file not found: " ++ file)
          /\ contains file ("Icon file not found: " ++ file) = true)
         /\ (exists_ (fs w) (Pathlib.Path file) = true ->
             icon_dark_url w s
             = get_icon_as_data_url (fs w) (Pathlib.Path file)))
  /\ (forall url,
         truthy_opt (glean_datasource_icon_filename_darkmode s) = false ->
         glean_datasource_icon_url_darkmode s = Some url ->
         truthy url = true ->
         icon_dark_url w s = download_icon w url
         /\ forall e, download_icon w url = Err e ->
                      exn_kind e = ValueError
                      /\ contains url (exn_msg e) = true)
  /\ (forall f path,
         lower (Pathlib.suffix path) <> ".png" ->
         lower (Pathlib.suffix path) <> ".svg" ->
         get_icon_as_data_url f path
         = raise ValueError
             ("Unsupported image format: " ++ lower (Pathlib.suffix path))).
Proof.
  repeat split.
  - unfold icon_url. rewrite H. cbn [truthy_opt value]. now rewrite H0, H1.
  - apply contains_suffix.
  - intros Hex. unfold icon_url. rewrite H. cbn [truthy_opt value].
    now rewrite H0, Hex.
  - unfold icon_url. rewrite H, H0. cbn [truthy_opt value]. now rewrite H1.
  - exact (proj1 (download_icon_error _ _ _ H2)).
  - exact (proj2 (download_icon_error _ _ _ H2)).
  - unfold icon_dark_url. rewrite H. cbn [truthy_opt value].
    now rewrite H0, H1.
  - apply contains_suffix.
  - intros Hex. unfold icon_dark_url. rewrite H. cbn [truthy_opt value].
    now rewrite H0, Hex.
  - unfold icon_dark_url. rewrite H, H0. cbn [truthy_opt value].
    now rewrite H1.
  - exact (proj1 (download_icon_error _ _ _ H2)).
  - exact (proj2 (download_icon_error _ _ _ H2)).
  - intros f path Hpng Hsvg. unfold get_icon_as_data_url, mime_types.
    destruct (String.eqb_spec (lower (Pathlib.suffix path)) ".png");
      [contradiction |].
    destruct (String.eqb_spec (lower (Pathlib.suffix path)) ".svg");
      [contradiction | reflexivity].
Qed.

Lemma icon_chain_fails_fast_witness :
  (icon_url offline_world missing_file_settings
   = raise ValueError "Icon file not found: missing.png"
   /\ contains "missing.png" "Icon file not found: missing.png" = true)
  /\ (icon_url jpeg_world jpeg_url_settings
      = download_icon jpeg_world "https://cdn.example.com/logo.jpg")
  /\ icon_url jpeg_world jpeg_file_settings
     = get_icon_as_data_url (fs jpeg_world) (Pathlib.Path "logo.jpg").
Proof.
  split; [| split].
  - apply (proj1 (icon_chain_fails_fast offline_world missing_file_settings)
             "missing.png"); reflexivity.
  - apply (proj1 (proj2 (icon_chain_fails_fast jpeg_world jpeg_url_settings))
             "https://cdn.example.com/logo.jpg"); reflexivity.
  - apply (proj1 (icon_chain_fails_fast jpeg_world jpeg_file_settings)
             "logo.jpg"); reflexivity.
Defined.

(** C6, as stated, fails: the configured file [logo.jpg] exists but is
    not a supported format; the resolution fails at once, yet the error
    names only the extension, not the candidate. *)
Lemma unsupported_file_error_omits_candidate :
  glean_datasource_icon_filename_lightmode jpeg_file_settings
  = Some "logo.jpg"
  /\ exists_ (fs jpeg_world) (Pathlib.Path "logo.jpg") = true
  /\ icon_url jpeg_world jpeg_file_settings
     = Err (Exn ValueError "Unsupported image format: .jpg")
  /\ contains "logo.jpg" "Unsupported image format: .jpg" = false.
Proof.
  repeat split.
Qed.

(** C4. When the retrieval of the existence check raises, whatever the
    error, the push neither fails nor asks for confirmation: it goes on
    exactly as it does for a record that is absent, whether or not
    overwriting was forced, and a request that can be prepared is sent to
    the remote side, the push returning whether that call succeeded. *)
Theorem existence_check_error_proceeds
        (w : World) (s : DatasourceSettings) (force : bool) (e : exn) :
  retrieve_config w (glean_datasource_id s) = Err e ->
  create_datasource w s force = create_after_check w s false
  /\ prompted (create_datasource w s force) = false
  /\ (forall request,
         prepare_request w s = Ok request ->
         add_called_with (create_datasource w s force) = Some request
         /\ returned (create_datasource w s force) = is_ok (add w request)).
Proof.
  intros Herr.
  assert (E : create_datasource w s force = create_after_check w s false).
  { unfold create_datasource, check_existence. now rewrite Herr. }
  rewrite E. unfold create_after_check.
  split; [reflexivity |]. split.
  - destruct (prepare_request w s) as [request | x]; [| reflexivity].
    destruct (add w request); reflexivity.
  - intros request ->. destruct (add w request); split; reflexivity.
Qed.

Lemma existence_check_error_proceeds_witness :
  create_datasource offline_world example_settings false
  = create_after_check offline_world example_settings false
  /\ prompted (create_datasource offline_world example_settings false) = false
  /\ returned (create_datasource offline_world example_settings false) = true.
Proof.
  destruct (existence_check_error_proceeds offline_world example_settings
              false (Exn OtherException "404 Not Found") eq_refl)
    as [H1 [H2 H3]].
  split; [exact H1 | split; [exact H2 |]].
  destruct (prepare_request offline_world example_settings) as [request |]
    eqn:R; [| vm_compute in R; discriminate R].
  exact (proj2 (H3 request eq_refl)).
Defined.

(** The path of a record that is absent, for comparison. *)
Lemma absent_record_proceeds
      (w : World) (s : DatasourceSettings) (force : bool) :
  retrieve_config w (glean_datasource_id s) = Ok None ->
  create_datasource w s force = create_after_check w s false.
Proof.
  intros H. unfold create_datasource, check_existence. now rewrite H.
Qed.

End PushFacts.

(** ** Base64: decoding inverts encoding *)

Section Base64Facts.

Import Strings.Byte Base64.

Lemma all_bytes_complete (b : byte) : existsb (Byte.eqb b) all_bytes = true.
Proof.
  destruct b; vm_compute; reflexivity.
Qed.

Lemma forall_byte (P : byte -> bool) :
  forallb P all_bytes = true -> forall b, P b = true.
Proof.
  intros H b. rewrite forallb_forall in H. apply H.
  destruct (proj1 (existsb_exists _ _) (all_bytes_complete b)) as [x [Hin E]].
  now rewrite (byte_dec_bl _ _ E).
Qed.

Lemma forall_byte2 (P : byte -> byte -> bool) :
  forallb (fun a => forallb (P a) all_bytes) all_bytes = true ->
  forall a b, P a b = true.
Proof.
  intros H a b.
  exact (forall_byte (P a) (forall_byte (fun a => forallb (P a) all_bytes) H a) b).
Qed.

Lemma faithful_spec (n : N) :
  faithful n = true ->
  Ascii.eqb (table_b2a n) pad = false
  /\ table_a2b (table_b2a n) = Some n
  /\ is_ascii (table_b2a n) = true
  /\ Text.is_char Regex.newline (table_b2a n) = false.
Proof.
  unfold faithful. intros H.
  apply andb_true_iff in H as [H H4]. apply andb_true_iff in H as [H H3].
  apply andb_true_iff in H as [H1 H2].
  apply negb_true_iff in H1, H4.
  destruct (table_a2b (table_b2a n)) as [m |]; [| discriminate].
  apply N.eqb_eq in H2. subst m. repeat split; assumption.
Qed.

Lemma enc1_faithful (a : byte) : faithful (enc1 a) = true.
Proof.
  revert a. apply forall_byte. vm_compute. reflexivity.
Qed.

Lemma enc2_faithful (a b : byte) : faithful (enc2 a b) = true.
Proof.
  revert a b. apply forall_byte2. vm_compute. reflexivity.
Qed.

Lemma enc3_faithful (b c : byte) : faithful (enc3 b c) = true.
Proof.
  revert b c. apply forall_byte2. vm_compute. reflexivity.
Qed.

Lemma enc4_faithful (c : byte) : faithful (enc4 c) = true.
Proof.
  revert c. apply forall_byte. vm_compute. reflexivity.
Qed.

Lemma first_byte (a b : byte) :
  to_byte (N.lor (N.shiftl (enc1 a) 2) (N.shiftr (enc2 a b) 4)) = a.
Proof.
  apply byte_dec_bl. revert a b.
  apply (forall_byte2
           (fun a b =>
              Byte.eqb
                (to_byte (N.lor (N.shiftl (enc1 a) 2)
                                (N.shiftr (enc2 a b) 4))) a)).
  vm_compute. reflexivity.
Qed.

Lemma first_left (a b : byte) :
  N.land (enc2 a b) 15 = N.shiftr (to_N b) 4.
Proof.
  apply N.eqb_eq. revert a b.
  apply (forall_byte2
           (fun a b => N.eqb (N.land (enc2 a b) 15) (N.shiftr (to_N b) 4))).
  vm_compute. reflexivity.
Qed.

Lemma second_byte (b c : byte) :
  to_byte (N.lor (N.shiftl (N.shiftr (to_N b) 4) 4) (N.shiftr (enc3 b c) 2))
  = b.
Proof.
  apply byte_dec_bl. revert b c.
  apply (forall_byte2
           (fun b c =>
              Byte.eqb
                (to_byte (N.lor (N.shiftl (N.shiftr (to_N b) 4) 4)
                                (N.shiftr (enc3 b c) 2))) b)).
  vm_compute. reflexivity.
Qed.

Lemma second_left (b c : byte) :
  N.land (enc3 b c) 3 = N.shiftr (to_N c) 6.
Proof.
  apply N.eqb_eq. revert b c.
  apply (forall_byte2
           (fun b c => N.eqb (N.land (enc3 b c) 3) (N.shiftr (to_N c) 6))).
  vm_compute. reflexivity.
Qed.

Lemma third_byte (c : byte) :
  to_byte (N.lor (N.shiftl (N.shiftr (to_N c) 6) 6) (enc4 c)) = c.
Proof.
  apply byte_dec_bl. revert c.
  apply (forall_byte
           (fun c =>
              Byte.eqb
                (to_byte (N.lor (N.shiftl (N.shiftr (to_N c) 6) 6) (enc4 c)))
                c)).
  vm_compute. reflexivity.
Qed.

Lemma a2b_loop_data (st : a2b_state) (n : N) (s : string) :
  faithful n = true ->
  a2b_loop st (String (table_b2a n) s) = a2b_loop (a2b_data st n) s.
Proof.
  intros H. destruct (faithful_spec n H) as (Hpad & Htab & _).
  cbn [a2b_loop]. now rewrite Hpad, Htab.
Qed.

Lemma list_ind3 {A : Type} (P : list A -> Prop) :
  P [] ->
  (forall a, P [a]) ->
  (forall a b, P [a; b]) ->
  (forall a b c l, P l -> P (a :: b :: c :: l)) ->
  forall l, P l.
Proof.
  intros H0 H1 H2 H3 l.
  assert (H : P l /\ (forall a, P (a :: l)) /\ (forall a b, P (a :: b :: l))).
  { induction l as [| x l (IH0 & IH1 & IH2)].
    - repeat split; auto.
    - repeat split; auto. }
  exact (proj1 H).
Qed.

(** The decoding loop, started between two groups, reads back the bytes
    that were encoded. *)
Lemma a2b_loop_b64encode (l : list byte) :
  forall out,
    a2b_loop (A2B 0 0 0 out) (b64encode l) = Ok (rev out ++ l)%list.
Proof.
  induction l as [| a | a b | a b c l IH] using list_ind3; intros out.
  - cbn. now rewrite app_nil_r.
  - cbn [b64encode].
    rewrite (a2b_loop_data _ _ _ (enc1_faithful a)).
    rewrite (a2b_loop_data _ _ _ (enc2_faithful a x00)).
    unfold a2b_data. cbn [quad_pos leftchar pads bin_data].
    rewrite first_byte. cbn. reflexivity.
  - cbn [b64encode].
    rewrite (a2b_loop_data _ _ _ (enc1_faithful a)).
    rewrite (a2b_loop_data _ _ _ (enc2_faithful a b)).
    rewrite (a2b_loop_data _ _ _ (enc3_faithful b x00)).
    unfold a2b_data. cbn [quad_pos leftchar pads bin_data].
    rewrite first_byte, first_left, second_byte. cbn.
    now rewrite <- app_assoc.
  - cbn [b64encode].
    rewrite (a2b_loop_data _ _ _ (enc1_faithful a)).
    rewrite (a2b_loop_data _ _ _ (enc2_faithful a b)).
    rewrite (a2b_loop_data _ _ _ (enc3_faithful b c)).
    rewrite (a2b_loop_data _ _ _ (enc4_faithful c)).
    unfold a2b_data. cbn [quad_pos leftchar pads bin_data].
    rewrite first_byte, first_left, second_byte, second_left, third_byte.
    rewrite IH. cbn [rev]. now rewrite <- !app_assoc.
Qed.

Lemma pad_payload_char :
  is_ascii pad && negb (Text.is_char Regex.newline pad) = true.
Proof.
  reflexivity.
Qed.

Lemma faithful_payload_char (n : N) :
  faithful n = true ->
  is_ascii (table_b2a n) && negb (Text.is_char Regex.newline (table_b2a n))
  = true.
Proof.
  intros H. destruct (faithful_spec n H) as (_ & _ & H1 & H2).
  now rewrite H1, H2.
Qed.

(** The encoding consists of ASCII characters, none of them a line
    feed. *)
Lemma b64encode_chars (l : list byte) :
  Text.all_chars
    (fun c => is_ascii c && negb (Text.is_char Regex.newline c))
    (b64encode l) = true.
Proof.
  induction l as [| a | a b | a b c l IH] using list_ind3;
    cbn [b64encode Text.all_chars];
    rewrite ?pad_payload_char,
      ?(faithful_payload_char _ (enc1_faithful _)),
      ?(faithful_payload_char _ (enc2_faithful _ _)),
      ?(faithful_payload_char _ (enc3_faithful _ _)),
      ?(faithful_payload_char _ (enc4_faithful _)), ?IH;
    reflexivity.
Qed.

Lemma b64encode_truthy (l : list byte) :
  l <> [] -> Text.truthy (b64encode l) = true.
Proof.
  destruct l as [| a [| b [| c l]]]; [congruence | | |]; reflexivity.
Qed.

(** [b64decode] inverts [b64encode]. *)
Lemma b64decode_b64encode (l : list byte) :
  b64decode (b64encode l) = Ok l.
Proof.
  unfold b64decode.
  rewrite (all_chars_impl _ is_ascii _
             (fun c H => proj1 (proj1 (andb_true_iff _ _) H))
             (b64encode_chars l)).
  exact (a2b_loop_b64encode l []).
Qed.

End Base64Facts.

(** ** Icons through a data URL and back *)

Section DataUrlFacts.

Import Text.

Lemma span_all (p : ascii -> bool) (s : string) :
  all_chars p s = true -> span p s = (s, "").
Proof.
  induction s as [| c s IH]; simpl; [reflexivity |].
  intros H. apply andb_true_iff in H as [Hc Hs].
  now rewrite Hc, (IH Hs).
Qed.

Lemma match_data_url_data_url (mime : string) (c : list Byte.byte) :
  mime = "image/png" \/ mime = "image/svg+xml" ->
  c <> [] ->
  match_data_url (data_url mime c) = Some (mime, Base64.b64encode c).
Proof.
  intros Hmime Hc.
  assert (Hspan : span (fun x => negb (is_char Regex.newline x))
                    (Base64.b64encode c) = (Base64.b64encode c, "")).
  { apply span_all.
    apply (all_chars_impl
             (fun x => Base64.is_ascii x && negb (is_char Regex.newline x)));
      [| apply b64encode_chars].
    intros x H. now apply andb_true_iff in H as [_ H]. }
  cbn in Hspan.
  destruct Hmime as [-> | ->]; unfold match_data_url, data_url; cbn;
    rewrite Hspan, (b64encode_truthy c Hc); reflexivity.
Qed.

Lemma data_url_prefix (mime : string) (c : list Byte.byte) :
  truthy (data_url mime c) && startswith "data:" (data_url mime c) = true.
Proof.
  reflexivity.
Qed.

(** Saving a data URL of one of the two formats, made from a non-empty
    content, writes that content under the target path with the
    extension of the format. *)
Lemma save_data_url_of_content
      (g : filesystem) (mime ext target saved : string)
      (c : list Byte.byte) :
  mime = "image/png" /\ ext = "png" \/ mime = "image/svg+xml" /\ ext = "svg" ->
  c <> [] ->
  Pathlib.with_suffix target ("." ++ ext) = Ok saved ->
  save_data_url_to_file g (data_url mime c) target
  = Ok (ext, write_bytes g saved c).
Proof.
  intros Hmime Hc Hsaved. unfold save_data_url_to_file.
  rewrite data_url_prefix. cbn [negb].
  rewrite match_data_url_data_url by (tauto || assumption).
  assert (Hext : extension_map mime = Some ext)
    by (destruct Hmime as [[-> ->] | [-> ->]]; reflexivity).
  rewrite Hext, b64decode_b64encode. cbn [bind].
  rewrite Hsaved. reflexivity.
Qed.

Lemma write_bytes_read (g : filesystem) (path : string) (c : list Byte.byte) :
  write_bytes g path c path = Some c.
Proof.
  unfold write_bytes. now rewrite String.eqb_refl.
Qed.

(** C9, as the program has it. For an existing, non-empty file whose
    extension is [.png] or [.svg] in any letter case, and a target path
    that has a file name, encoding the file with [get_icon_as_data_url]
    and decoding the result with [save_data_url_to_file] returns the
    extension of the format and writes exactly the bytes of the file under
    the target path with that extension. *)
Theorem icon_data_url_round_trip
        (f g : filesystem) (file_path target : string) (c : list Byte.byte) :
  f file_path = Some c ->
  c <> [] ->
  lower (Pathlib.suffix file_path) = ".png"
  \/ lower (Pathlib.suffix file_path) = ".svg" ->
  is_empty (Pathlib.name target) = false ->
  exists u ext saved,
    get_icon_as_data_url f file_path = Ok u
    /\ "." ++ ext = lower (Pathlib.suffix file_path)
    /\ Pathlib.with_suffix target ("." ++ ext) = Ok saved
    /\ save_data_url_to_file g u target = Ok (ext, write_bytes g saved c)
    /\ write_bytes g saved c saved = Some c.
Proof.
  intros Hfile Hc Hsuffix Hname.
  assert (Hread : read_bytes f file_path = Ok c)
    by (unfold read_bytes; now rewrite Hfile).
  assert (Hsaved : forall ext,
             Pathlib.with_suffix target ("." ++ ext)
             = Ok (Pathlib.parent_prefix target ++ Pathlib.stem target
                   ++ "." ++ ext))
    by (intros ext; unfold Pathlib.with_suffix; now rewrite Hname).
  destruct Hsuffix as [E | E].
  - exists (data_url "image/png" c), "png",
      (Pathlib.parent_prefix target ++ Pathlib.stem target ++ ".png").
    split; [unfold get_icon_as_data_url; rewrite E; cbn; now rewrite Hread |].
    split; [now rewrite E |].
    split; [apply Hsaved |].
    split; [| apply write_bytes_read].
    apply save_data_url_of_content; [tauto | assumption | apply Hsaved].
  - exists (data_url "image/svg+xml" c), "svg",
      (Pathlib.parent_prefix target ++ Pathlib.stem target ++ ".svg").
    split; [unfold get_icon_as_data_url; rewrite E; cbn; now rewrite Hread |].
    split; [now rewrite E |].
    split; [apply Hsaved |].
    split; [| apply write_bytes_read].
    apply save_data_url_of_content; [tauto | assumption | apply Hsaved].
Qed.

Lemma icon_data_url_round_trip_witness :
  exists u ext saved,
    get_icon_as_data_url one_icon_fs "icon.PNG" = Ok u
    /\ "." ++ ext = lower (Pathlib.suffix "icon.PNG")
    /\ Pathlib.with_suffix "out/icon-lightmode" ("." ++ ext) = Ok saved
    /\ save_data_url_to_file no_files u "out/icon-lightmode"
       = Ok (ext, write_bytes no_files saved png_bytes)
    /\ write_bytes no_files saved png_bytes saved = Some png_bytes.
Proof.
  apply (icon_data_url_round_trip one_icon_fs no_files "icon.PNG"
           "out/icon-lightmode" png_bytes);
    [reflexivity | discriminate | left; reflexivity | reflexivity].
Defined.

(** C9, as stated, fails on an empty file: its data URL has an empty
    payload, which the decoder refuses, and nothing is written. *)
Lemma empty_icon_does_not_round_trip :
  empty_icon_fs "icon.png" = Some []
  /\ get_icon_as_data_url empty_icon_fs "icon.png"
     = Ok "data:image/png;base64,"
  /\ save_data_url_to_file no_files "data:image/png;base64," "out/icon"
     = Err (Exn ValueError "Invalid data URL format").
Proof.
  repeat split.
Qed.

End DataUrlFacts.

(** ** Round trip: push, export, re-assembly *)

Section RoundTripFacts.

Import Text.








Lemma field_display_name_ok (v v' : string) :
  field_display_name v = Ok v' -> v' = v.
Proof.
  unfold field_display_name, validate_display_name, raise.
  repeat match goal with
         | |- context [if ?b then _ else _] => destruct b
         | |- context [match ?o with Some _ => _ | None => _ end] =>
             destruct o
         end; congruence.
Qed.






Lemma is_empty_app_char (d : string) (c : ascii) (n : string) :
  is_empty (d ++ String c n) = false.
Proof.
  destruct d; reflexivity.
Qed.

Lemma rsplit_at_app (c : ascii) (n : string) :
  Pathlib.rsplit_at c n = ("", n) ->
  forall d, Pathlib.rsplit_at c (d ++ String c n) = (d ++ String c "", n).
Proof.
  intros Hn. induction d as [| a d IH].
  - cbn [append Pathlib.rsplit_at]. rewrite Hn. cbn [is_empty].
    now rewrite Ascii.eqb_refl.
  - cbn [append Pathlib.rsplit_at]. rewrite IH, is_empty_app_char.
    reflexivity.
Qed.

(** [(dir / stem).with_suffix(ext)] for a stem without separator or
    dot. *)
Lemma with_suffix_join (dir stem ext : string) :
  Pathlib.rsplit_at Pathlib.slash stem = ("", stem) ->
  Pathlib.rsplit_at Pathlib.dot stem = ("", stem) ->
  is_empty stem = false ->
  Pathlib.with_suffix (Pathlib.join dir stem) ext
  = Ok (Pathlib.join dir (stem ++ ext)).
Proof.
  intros Hslash Hdot Hne.
  unfold Pathlib.with_suffix, Pathlib.name, Pathlib.stem,
    Pathlib.parent_prefix, Pathlib.name, Pathlib.join.
  rewrite (rsplit_at_app _ _ Hslash). cbn [fst snd].
  rewrite Hne, Hdot. cbn [String.length Nat.ltb Nat.leb andb].
  now rewrite append_assoc.
Qed.

Lemma join_eqb (dir a b : string) :
  String.eqb (Pathlib.join dir a) (Pathlib.join dir b) = String.eqb a b.
Proof.
  unfold Pathlib.join. induction dir as [| c dir IH]; cbn [append String.eqb].
  - now rewrite Ascii.eqb_refl.
  - now rewrite Ascii.eqb_refl.
Qed.

Lemma write_bytes_join_other
      (f : filesystem) (dir a b : string) (c : list Byte.byte) :
  String.eqb a b = false ->
  write_bytes f (Pathlib.join dir b) c (Pathlib.join dir a)
  = f (Pathlib.join dir a).
Proof.
  intros H. unfold write_bytes. now rewrite join_eqb, H.
Qed.













End RoundTripFacts.

(** * Further properties of the program *)

(** ** [normalize_datasource_id]: fixed points and empty results *)

Section NormalizeMore.

Import Text.

Ltac check_every_ascii :=
  apply forall_ascii;
  intros [] [] [] [] [] [] [] []; vm_compute; reflexivity.

Lemma slug_class_kept (c : ascii) :
  implb (slug_class c)
    (negb (negb (is_alnum c || is_space c || is_char hyphen c))
     && negb (is_space c) && Ascii.eqb (lower_char c) c) = true.
Proof.
  revert c. check_every_ascii.
Qed.

Lemma lower_char_alnum (c : ascii) :
  Bool.eqb (is_alnum (lower_char c)) (is_alnum c) = true.
Proof.
  revert c. check_every_ascii.
Qed.

Lemma slug_not_alnum_is_hyphen (c : ascii) :
  implb (slug_class c && negb (is_alnum c)) (is_char hyphen c) = true.
Proof.
  revert c. check_every_ascii.
Qed.

Lemma removed_not_alnum (c : ascii) :
  implb (negb (is_alnum c || is_space c || is_char hyphen c)
         || is_space c || is_char hyphen c)
        (negb (is_alnum c)) = true.
Proof.
  revert c. check_every_ascii.
Qed.

Lemma re_sub_class_empty_id (cls : ascii -> bool) (s : string) :
  all_chars (fun c => negb (cls c)) s = true -> re_sub_class_empty cls s = s.
Proof.
  induction s as [| c s IH]; simpl; [reflexivity |].
  intros H. apply andb_true_iff in H as [Hc Hs].
  apply negb_true_iff in Hc. now rewrite Hc, IH.
Qed.

Lemma re_sub_runs_id (cls : ascii -> bool) (repl : string) (s : string) :
  all_chars (fun c => negb (cls c)) s = true ->
  forall b, re_sub_runs cls repl b s = s.
Proof.
  induction s as [| c s IH]; simpl; [reflexivity |].
  intros H b. apply andb_true_iff in H as [Hc Hs].
  apply negb_true_iff in Hc. now rewrite Hc, IH.
Qed.

Lemma re_sub_runs_collapsed (x : ascii) (s : string) :
  forall b,
    no_adjacent (is_char x) s = true ->
    (b = true -> starts_clean (is_char x) s = true) ->
    re_sub_runs (is_char x) (String x "") b s = s.
Proof.
  induction s as [| c s IH]; intros b Hn Hb; [reflexivity |].
  cbn [re_sub_runs]. pose proof (no_adjacent_tail _ _ _ Hn) as Hn'.
  destruct (is_char x c) eqn:E.
  - destruct b.
    + specialize (Hb eq_refl). unfold starts_clean in Hb. simpl in Hb.
      rewrite E in Hb. discriminate.
    + cbn [append]. rewrite IH; [| exact Hn' |].
      * unfold is_char in E. apply Ascii.eqb_eq in E. now subst.
      * intros _. destruct s as [| a t]; [reflexivity |].
        unfold starts_clean. simpl. simpl in Hn.
        apply andb_true_iff in Hn as [Hn _]. rewrite E in Hn.
        simpl in Hn. exact Hn.
  - rewrite IH; [reflexivity | exact Hn' | discriminate].
Qed.

Lemma lower_id (s : string) :
  all_chars (fun c => Ascii.eqb (lower_char c) c) s = true -> lower s = s.
Proof.
  induction s as [| c s IH]; simpl; [reflexivity |].
  intros H. apply andb_true_iff in H as [Hc Hs].
  apply Ascii.eqb_eq in Hc. now rewrite Hc, IH.
Qed.

(** The shape of every result of [normalize_datasource_id]. *)
Lemma normalize_shape (display_name : string) :
  let id := normalize_datasource_id display_name in
  all_chars slug_class id = true
  /\ starts_clean (is_char hyphen) id = true
  /\ ends_clean (is_char hyphen) id = true
  /\ no_adjacent (is_char hyphen) id = true.
Proof.
  intros id. unfold normalize_datasource_id in id.
  set (keep := fun c => negb (is_alnum c || is_space c || is_char hyphen c))
    in id.
  set (s1 := re_sub_class_empty keep display_name) in id.
  set (s2 := re_sub_class_plus is_space "-" s1) in id.
  set (s3 := re_sub_class_plus (is_char hyphen) "-" s2) in id.
  set (word := fun c => is_alnum c || is_char hyphen c).
  assert (H1 : all_chars (fun c => negb (keep c)) s1 = true)
    by apply re_sub_class_empty_all.
  assert (H2 : all_chars word s2 = true).
  { unfold s2, re_sub_class_plus.
    apply re_sub_runs_all with (q := fun c => negb (keep c));
      [| reflexivity | exact H1].
    intros c Hk Hs. pose proof (keep_class_split c) as K.
    unfold keep in Hk. rewrite Hk in K. simpl in K.
    rewrite Hs in K. exact K. }
  assert (H3 : all_chars word s3 = true).
  { unfold s3, re_sub_class_plus.
    apply re_sub_runs_all with (q := word); [| reflexivity | exact H2].
    intros c Hw Hh. unfold word in *. now rewrite Hh, orb_false_r in *. }
  assert (N3 : no_adjacent (is_char hyphen) s3 = true)
    by apply (re_sub_runs_collapse hyphen s2 false).
  assert (Hlow : forall c, is_char hyphen (lower_char c) = is_char hyphen c).
  { intros c. apply Bool.eqb_prop, lower_char_hyphen. }
  repeat split.
  - unfold id, strip_chars.
    apply lower_all with (p := word); [| now apply rstrip_all, lstrip_all].
    intros c Hw. pose proof (lower_char_slug c) as K.
    unfold word in Hw. now rewrite Hw in K.
  - unfold id, strip_chars. rewrite (lower_starts_clean _ _ Hlow).
    apply rstrip_starts_clean, lstrip_starts_clean.
  - unfold id, strip_chars. rewrite (lower_ends_clean _ _ Hlow).
    apply rstrip_ends_clean.
  - unfold id, strip_chars. rewrite (lower_no_adjacent _ _ Hlow).
    now apply rstrip_no_adjacent, lstrip_no_adjacent.
Qed.

(** A text of lower-case letters, digits and single hyphens between them
    is left as it is. *)
Lemma normalize_fixed (id : string) :
  all_chars slug_class id = true ->
  starts_clean (is_char hyphen) id = true ->
  ends_clean (is_char hyphen) id = true ->
  no_adjacent (is_char hyphen) id = true ->
  normalize_datasource_id id = id.
Proof.
  intros A S E N. unfold normalize_datasource_id, re_sub_class_plus.
  assert (K : forall c, slug_class c = true ->
                negb (negb (is_alnum c || is_space c || is_char hyphen c))
                = true
                /\ negb (is_space c) = true
                /\ Ascii.eqb (lower_char c) c = true).
  { intros c Hc. pose proof (slug_class_kept c) as H. rewrite Hc in H.
    simpl in H. apply andb_true_iff in H as [H H3].
    apply andb_true_iff in H as [H1 H2]. auto. }
  rewrite (re_sub_class_empty_id _ id)
    by (apply (all_chars_impl slug_class); [intros c Hc; apply K, Hc | exact A]).
  rewrite (re_sub_runs_id is_space "-" id)
    by (apply (all_chars_impl slug_class); [intros c Hc; apply K, Hc | exact A]).
  change (re_sub_runs (is_char hyphen) "-" false id)
    with (re_sub_runs (is_char hyphen) (String hyphen "") false id).
  rewrite (re_sub_runs_collapsed hyphen id false N) by discriminate.
  unfold strip_chars. rewrite (lstrip_id _ _ S), (rstrip_id _ _ E).
  apply lower_id.
  apply (all_chars_impl slug_class); [intros c Hc; apply K, Hc | exact A].
Qed.

(** X1. Normalising twice is the same as normalising once: an id that
    [normalize_datasource_id] produced is its own normal form. *)
Theorem normalize_datasource_id_idempotent (display_name : string) :
  normalize_datasource_id (normalize_datasource_id display_name)
  = normalize_datasource_id display_name.
Proof.
  destruct (normalize_shape display_name) as (A & S & E & N).
  now apply normalize_fixed.
Qed.

Lemma no_alnum_re_sub_class_empty (cls : ascii -> bool) (s : string) :
  (forall c, cls c = true -> is_alnum c = false) ->
  no_alnum (re_sub_class_empty cls s) = no_alnum s.
Proof.
  intros Hcls. unfold no_alnum. induction s as [| c s IH]; simpl;
    [reflexivity |].
  destruct (cls c) eqn:E; simpl; [| now rewrite IH].
  now rewrite IH, (Hcls _ E).
Qed.

Lemma no_alnum_re_sub_runs (cls : ascii -> bool) (repl s : string) :
  (forall c, cls c = true -> is_alnum c = false) ->
  no_alnum repl = true ->
  forall b, no_alnum (re_sub_runs cls repl b s) = no_alnum s.
Proof.
  intros Hcls Hrepl. unfold no_alnum in *.
  induction s as [| c s IH]; intros b; simpl; [reflexivity |].
  destruct (cls c) eqn:E.
  - rewrite (Hcls _ E). simpl. destruct b; [apply IH |].
    rewrite all_chars_app, Hrepl. apply IH.
  - simpl. now rewrite IH.
Qed.

Lemma no_alnum_lstrip (p : ascii -> bool) (s : string) :
  (forall c, p c = true -> is_alnum c = false) ->
  no_alnum (lstrip p s) = no_alnum s.
Proof.
  intros Hp. unfold no_alnum. induction s as [| c s IH]; simpl;
    [reflexivity |].
  destruct (p c) eqn:E; [| reflexivity].
  now rewrite IH, (Hp _ E).
Qed.

Lemma no_alnum_rstrip (p : ascii -> bool) (s : string) :
  (forall c, p c = true -> is_alnum c = false) ->
  no_alnum (rstrip p s) = no_alnum s.
Proof.
  intros Hp. unfold no_alnum. induction s as [| c s IH]; [reflexivity |].
  cbn [rstrip all_chars].
  destruct (rstrip p s) as [| b t] eqn:R; cbn [is_empty andb].
  - destruct (p c) eqn:E; cbn [all_chars].
    + rewrite <- IH, (Hp _ E). reflexivity.
    + now rewrite <- IH.
  - now rewrite <- IH.
Qed.

Lemma no_alnum_lower (s : string) : no_alnum (lower s) = no_alnum s.
Proof.
  unfold no_alnum. induction s as [| c s IH]; simpl; [reflexivity |].
  now rewrite IH, (Bool.eqb_prop _ _ (lower_char_alnum c)).
Qed.

(** Normalisation neither adds nor removes letters and digits
    altogether. *)
Lemma no_alnum_normalize (display_name : string) :
  no_alnum (normalize_datasource_id display_name) = no_alnum display_name.
Proof.
  assert (R : forall c, negb (is_alnum c || is_space c || is_char hyphen c)
                        || is_space c || is_char hyphen c = true ->
                        is_alnum c = false).
  { intros c Hc. pose proof (removed_not_alnum c) as H. rewrite Hc in H.
    simpl in H. now apply negb_true_iff in H. }
  unfold normalize_datasource_id, re_sub_class_plus, strip_chars.
  rewrite no_alnum_lower, no_alnum_rstrip, no_alnum_lstrip.
  - rewrite !no_alnum_re_sub_runs; try reflexivity.
    + apply no_alnum_re_sub_class_empty.
      intros c Hc. apply R. now rewrite Hc.
    + intros c Hc. apply R. rewrite Hc. now rewrite !orb_true_r.
    + intros c Hc. apply R. rewrite Hc. now rewrite !orb_true_r.
  - intros c Hc. apply R. rewrite Hc. now rewrite !orb_true_r.
  - intros c Hc. apply R. rewrite Hc. now rewrite !orb_true_r.
Qed.

Lemma all_hyphens_clean_empty (s : string) :
  all_chars (is_char hyphen) s = true ->
  starts_clean (is_char hyphen) s = true ->
  s = "".
Proof.
  destruct s as [| c s]; [reflexivity |].
  unfold starts_clean. simpl. intros H1 H2.
  apply andb_true_iff in H1 as [H1 _]. now rewrite H1 in H2.
Qed.

(** X2. The id suggested for a display name is empty exactly when the
    display name has no ASCII letter and no digit; such an id is refused
    by the id field. With at least one letter or digit the suggested id is
    accepted by the id field. *)
Theorem normalize_datasource_id_empty_iff (display_name : string) :
  (normalize_datasource_id display_name = ""
   <-> no_alnum display_name = true)
  /\ (no_alnum display_name = true ->
      exists e,
        field_datasource_id (normalize_datasource_id display_name) = Err e)
  /\ (no_alnum display_name = false ->
      field_datasource_id (normalize_datasource_id display_name)
      = Ok (normalize_datasource_id display_name)).
Proof.
  destruct (normalize_shape display_name) as (A & S & _ & _).
  pose proof (no_alnum_normalize display_name) as I.
  assert (Hiff : normalize_datasource_id display_name = ""
                 <-> no_alnum display_name = true).
  { split.
    - intros E. rewrite E in I. now rewrite <- I.
    - intros H. rewrite H in I. apply all_hyphens_clean_empty; [| exact S].
      set (id := normalize_datasource_id display_name) in *.
      clearbody id. unfold no_alnum in I.
      induction id as [| c id IH]; [reflexivity |].
      simpl in *. apply andb_true_iff in A as [Ac As].
      apply andb_true_iff in I as [Ic Is].
      pose proof (slug_not_alnum_is_hyphen c) as K.
      rewrite Ac, Ic in K. simpl in K. rewrite K. simpl.
      destruct id as [| c' id'] ; [reflexivity |].
      apply IH; [exact As | | exact Is].
      unfold starts_clean in *. simpl in *. now rewrite K in S. }
  split; [exact Hiff |]. split.
  - intros H. rewrite (proj2 Hiff H). eexists. reflexivity.
  - intros H. set (id := normalize_datasource_id display_name) in *.
    assert (Hne : id <> "").
    { intros E. apply Hiff in E. congruence. }
    unfold field_datasource_id, datasource_id_pattern.
    now rewrite (proj2 (fullmatch_lang id _) (lang_plus_class slug_class id Hne A)).
Qed.

Lemma normalize_datasource_id_empty_iff_witness :
  (exists e,
      field_datasource_id (normalize_datasource_id "?! -- !?") = Err e)
  /\ field_datasource_id (normalize_datasource_id "My App (v2)")
     = Ok (normalize_datasource_id "My App (v2)").
Proof.
  split.
  - apply (proj1 (proj2 (normalize_datasource_id_empty_iff "?! -- !?"))).
    reflexivity.
  - apply (proj2 (proj2 (normalize_datasource_id_empty_iff "My App (v2)"))).
    reflexivity.
Defined.

End NormalizeMore.

(** ** Assembly: which inputs are accepted *)

Section AssemblyMore.

Import Text.

Lemma strip_clean (s : string) :
  strip s = s ->
  starts_clean is_space s = true /\ ends_clean is_space s = true.
Proof.
  intros E. split; rewrite <- E; unfold strip, strip_chars.
  - apply rstrip_starts_clean, lstrip_starts_clean.
  - apply rstrip_ends_clean.
Qed.

(** X3. The display-name field accepts a text exactly when it has at
    most 50 characters, neither starts nor ends with white space and does
    not end with one of [/ ; : ,]; an accepted text is returned
    unchanged. The empty text is accepted. *)
Theorem field_display_name_accepted_iff (d : string) :
  (field_display_name d = Ok d
   <-> String.length d <= 50
       /\ starts_clean is_space d = true
       /\ ends_clean is_space d = true
       /\ ends_clean (one_of display_name_symbols) d = true)
  /\ (forall d', field_display_name d = Ok d' -> d' = d)
  /\ field_display_name "" = Ok "".
Proof.
  split; [| split; [apply field_display_name_ok | reflexivity]].
  split.
  - unfold field_display_name, validate_display_name, raise.
    destruct (Nat.ltb_spec 50 (String.length d)) as [Hgt | Hle];
      [discriminate |].
    destruct (String.eqb_spec d (strip d)) as [E | _]; [| discriminate].
    cbn [negb]. symmetry in E. destruct (strip_clean d E) as [Hs He].
    intros H. repeat split; try assumption.
    unfold ends_clean. destruct (last_char d) as [c |]; [| reflexivity].
    destruct (one_of display_name_symbols c); [discriminate | reflexivity].
  - intros (Hlen & Hs & He & Hsym). now apply field_display_name_accepts.
Qed.








Ltac settle r := destruct r eqn:?; [| cbn; discriminate].



End AssemblyMore.

(** ** Resolved fields: defaults and filtering *)

Section ResolvedMore.

Import Text.

Lemma rstrip_app_class (p : ascii -> bool) (s t : string) :
  all_chars p t = true -> rstrip p (s ++ t) = rstrip p s.
Proof.
  intros Ht. induction s as [| c s IH].
  - cbn [append rstrip]. induction t as [| a t IHt]; [reflexivity |].
    simpl in Ht. apply andb_true_iff in Ht as [Ha Ht].
    cbn [rstrip]. rewrite (IHt Ht), Ha. reflexivity.
  - cbn [append rstrip]. now rewrite IH.
Qed.

Lemma rstrip_split (p : ascii -> bool) (s : string) :
  exists t, s = rstrip p s ++ t /\ all_chars p t = true.
Proof.
  induction s as [| c s (t & E & Ht)].
  - exists "". split; reflexivity.
  - cbn [rstrip]. destruct (rstrip p s) as [| b r] eqn:R.
    + cbn [is_empty andb]. destruct (p c) eqn:Hc.
      * exists (String c s). split; [reflexivity |].
        simpl. rewrite Hc. simpl in E. now rewrite E.
      * exists t. split; [| exact Ht]. simpl in *. now rewrite <- E.
    + cbn [is_empty andb]. exists t. split; [| exact Ht].
      cbn [append] in E |- *. now rewrite <- E.
Qed.

(** X6. The default URL regex does not depend on the trailing slashes of
    the home URL: the home URL is some base that does not end with a
    slash, followed by slashes only, and the default is that base
    followed by [/.*]; adding slashes to the home URL leaves the default
    unchanged. *)
Theorem url_regex_default_trailing_slashes
        (s : DatasourceSettings) (slashes : string) :
  truthy_opt (glean_datasource_url_regex s) = false ->
  all_chars (is_char Pathlib.slash) slashes = true ->
  (exists base tail,
      glean_datasource_home_url s = base ++ tail
      /\ all_chars (is_char Pathlib.slash) tail = true
      /\ ends_clean (is_char Pathlib.slash) base = true
      /\ url_regex s = base ++ "/.*")
  /\ url_regex (with_home_url s (glean_datasource_home_url s ++ slashes))
     = url_regex s.
Proof.
  intros Hnone Hsl. split.
  - destruct (rstrip_split (is_char Pathlib.slash)
                (glean_datasource_home_url s)) as (tail & E & Ht).
    exists (rstrip (is_char Pathlib.slash) (glean_datasource_home_url s)),
      tail.
    split; [exact E |]. split; [exact Ht |].
    split; [apply rstrip_ends_clean |].
    unfold url_regex. now rewrite Hnone.
  - unfold url_regex. cbn [glean_datasource_url_regex with_home_url
                           glean_datasource_home_url].
    rewrite Hnone. now rewrite rstrip_app_class.
Qed.

Lemma url_regex_default_trailing_slashes_witness :
  (exists base tail,
      glean_datasource_home_url example_settings = base ++ tail
      /\ all_chars (is_char Pathlib.slash) tail = true
      /\ ends_clean (is_char Pathlib.slash) base = true
      /\ url_regex example_settings = base ++ "/.*")
  /\ url_regex
       (with_home_url example_settings
          (glean_datasource_home_url example_settings ++ "//"))
     = url_regex example_settings.
Proof.
  apply (url_regex_default_trailing_slashes example_settings "//");
    reflexivity.
Defined.

Lemma validate_emails_partition (emails : list string) :
  validate_emails emails
  = (filter (Regex.match_anchored email_pattern) emails,
     map email_warning
       (filter (fun m => negb (Regex.match_anchored email_pattern m))
          emails)).
Proof.
  induction emails as [| m rest IH]; [reflexivity |].
  cbn [validate_emails filter]. rewrite IH.
  destruct (Regex.match_anchored email_pattern m); reflexivity.
Qed.

(** X7. The e-mail filter is a stable partition of the entries of the
    field (the non-blank pieces between commas, stripped): the addresses
    kept are exactly the entries that match the pattern, in their order
    and with their repetitions, and the warnings are exactly one per
    entry that does not match, in order; blank pieces are skipped without
    a warning, and an empty field gives no entry at all. *)
Theorem test_user_emails_partition (s : DatasourceSettings) :
  fst (test_user_emails_list s)
  = filter (Regex.match_anchored email_pattern) (test_user_entries s)
  /\ snd (test_user_emails_list s)
     = map email_warning
         (filter (fun m => negb (Regex.match_anchored email_pattern m))
            (test_user_entries s))
  /\ List.length (fst (test_user_emails_list s))
     + List.length (snd (test_user_emails_list s))
     = List.length (test_user_entries s)
  /\ Forall (fun m => m <> "" /\ strip m = m) (test_user_entries s).
Proof.
  assert (P : test_user_emails_list s
              = (filter (Regex.match_anchored email_pattern)
                   (test_user_entries s),
                 map email_warning
                   (filter
                      (fun m => negb (Regex.match_anchored email_pattern m))
                      (test_user_entries s)))).
  { unfold test_user_emails_list, test_user_entries.
    destruct (truthy (glean_datasource_test_user_emails s)) eqn:T;
      cbn [negb]; [apply validate_emails_partition |].
    apply not_truthy_empty in T. rewrite T. reflexivity. }
  rewrite P. cbn [fst snd]. split; [reflexivity |]. split; [reflexivity |].
  split.
  - rewrite length_map. clear P.
    induction (test_user_entries s) as [| m l IH]; [reflexivity |].
    cbn [filter]. destruct (Regex.match_anchored email_pattern m);
      simpl; simpl in IH; lia.
  - unfold test_user_entries. apply Forall_forall. intros m Hm.
    apply in_map_iff in Hm as (piece & <- & Hp).
    apply filter_In in Hp as [_ Hp]. split.
    + intros E. rewrite E in Hp. discriminate.
    + unfold strip, strip_chars.
      rewrite (lstrip_id is_space); [apply rstrip_id, rstrip_ends_clean |].
      apply rstrip_starts_clean, lstrip_starts_clean.
Qed.

End ResolvedMore.

(** ** Icons: errors and the decoding of data URLs *)

Section IconMore.

Import Text.







Lemma span_stop (p : ascii -> bool) (a : string) (c : ascii) (r : string) :
  all_chars p a = true ->
  p c = false ->
  span p (a ++ String c r) = (a, String c r).
Proof.
  intros Ha Hc. induction a as [| x a IH].
  - simpl. now rewrite Hc.
  - simpl in Ha. apply andb_true_iff in Ha as [Hx Ha].
    cbn [append span]. now rewrite Hx, (IH Ha).
Qed.

(** The pattern of [save_data_url_to_file] on a well-formed data URL: the
    two groups are the MIME type and the payload. *)
Lemma match_data_url_parts (mime payload : string) :
  truthy mime = true ->
  all_chars (fun c => negb (is_char semicolon c)) mime = true ->
  truthy payload = true ->
  all_chars (fun c => negb (is_char Regex.newline c)) payload = true ->
  match_data_url ("data:" ++ mime ++ ";base64," ++ payload)
  = Some (mime, payload).
Proof.
  intros Tm Am Tp Ap. unfold match_data_url.
  change (startswith "data:" ("data:" ++ mime ++ ";base64," ++ payload))
    with true.
  change (drop 5 ("data:" ++ mime ++ ";base64," ++ payload))
    with (mime ++ String semicolon ("base64," ++ payload)).
  cbv iota. rewrite (span_stop _ mime semicolon _ Am eq_refl), Tm.
  change (startswith ";base64," (String semicolon ("base64," ++ payload)))
    with true.
  change (drop 8 (String semicolon ("base64," ++ payload))) with payload.
  cbn [andb]. now rewrite (span_all _ _ Ap), Tp.
Qed.

Lemma extension_map_values (mime ext : string) :
  extension_map mime = Some ext ->
  mime = "image/png" /\ ext = "png" \/ mime = "image/svg+xml" /\ ext = "svg".
Proof.
  unfold extension_map.
  destruct (String.eqb_spec mime "image/png") as [-> | _];
    [intros [= <-]; now left |].
  destruct (String.eqb_spec mime "image/svg+xml") as [-> | _];
    [intros [= <-]; now right | discriminate].
Qed.

(** X10. What [save_data_url_to_file] does when it succeeds: the
    extension returned is [png] or [svg], exactly one file is written,
    namely the target path with that extension, and every other path of
    the file system is left as it was. A text that does not start with
    [data:] is refused as an invalid data URL, and a well-formed data URL
    of another MIME type is refused with an error that names the MIME
    type. *)
Theorem save_data_url_to_file_outcome
        (f : filesystem) (data_url target : string) :
  (forall ext f',
      save_data_url_to_file f data_url target = Ok (ext, f') ->
      (ext = "png" \/ ext = "svg")
      /\ exists saved c,
           Pathlib.with_suffix target ("." ++ ext) = Ok saved
           /\ f' saved = Some c
           /\ forall p, p <> saved -> f' p = f p)
  /\ (startswith "data:" data_url = false ->
      save_data_url_to_file f data_url target
      = raise ValueError "Invalid data URL")
  /\ (forall mime payload,
         data_url = "data:" ++ mime ++ ";base64," ++ payload ->
         truthy mime = true ->
         all_chars (fun c => negb (is_char semicolon c)) mime = true ->
         truthy payload = true ->
         all_chars (fun c => negb (is_char Regex.newline c)) payload = true ->
         mime <> "image/png" -> mime <> "image/svg+xml" ->
         save_data_url_to_file f data_url target
         = raise ValueError ("Unsupported MIME type: " ++ mime)).
Proof.
  split; [| split].
  - intros ext f'. unfold save_data_url_to_file, raise.
    destruct (negb (truthy data_url && startswith "data:" data_url));
      [discriminate |].
    destruct (match_data_url data_url) as [[mime payload] |]; [| discriminate].
    destruct (extension_map mime) as [extension |] eqn:M; [| discriminate].
    destruct (Base64.b64decode payload) as [c | e]; [| discriminate].
    cbn [bind].
    destruct (Pathlib.with_suffix target ("." ++ extension)) as [saved | e]
      eqn:W; [| discriminate].
    cbn [bind]. intros [= <- <-]. split.
    + destruct (extension_map_values _ _ M) as [[_ ->] | [_ ->]]; tauto.
    + exists saved, c. split; [exact W |].
      split; [apply write_bytes_read |].
      intros p Hp. unfold write_bytes.
      destruct (String.eqb_spec p saved); [contradiction | reflexivity].
  - intros H. unfold save_data_url_to_file. now rewrite H, andb_false_r.
  - intros mime payload -> Tm Am Tp Ap Hpng Hsvg.
    unfold save_data_url_to_file.
    rewrite (match_data_url_parts mime payload Tm Am Tp Ap).
    change (truthy ("data:" ++ mime ++ ";base64," ++ payload)
            && startswith "data:" ("data:" ++ mime ++ ";base64," ++ payload))
      with true.
    cbn [negb]. unfold extension_map.
    destruct (String.eqb_spec mime "image/png"); [contradiction |].
    destruct (String.eqb_spec mime "image/svg+xml"); [contradiction |].
    reflexivity.
Qed.

Lemma save_data_url_to_file_outcome_witness :
  save_data_url_to_file no_files "image/png;base64,iVBORw==" "out/icon"
  = raise ValueError "Invalid data URL"
  /\ save_data_url_to_file no_files
       ("data:" ++ "image/jpeg" ++ ";base64," ++ "/9g=") "out/icon"
     = raise ValueError ("Unsupported MIME type: " ++ "image/jpeg").
Proof.
  split.
  - apply (proj1 (proj2 (save_data_url_to_file_outcome
                           no_files "image/png;base64,iVBORw==" "out/icon"))).
    reflexivity.
  - apply (proj2 (proj2 (save_data_url_to_file_outcome no_files
                           ("data:" ++ "image/jpeg" ++ ";base64," ++ "/9g=")
                           "out/icon")) "image/jpeg" "/9g=");
      solve [reflexivity | discriminate].
Defined.

End IconMore.

(** ** Push: what is sent, and when *)

Section PushMore.

Import Text.

Ltac invert_bind H :=
  let a := fresh "a" in
  let Ha := fresh "Ha" in
  apply bind_ok in H as [a [Ha H]].

Lemma add_called_prepared
      (w : World) (s : DatasourceSettings) (force : bool)
      (request : CustomDatasourceConfig) :
  add_called_with (create_datasource w s force) = Some request ->
  prepare_request w s = Ok request.
Proof.
  unfold create_datasource.
  destruct (check_existence w s force) as [[|] p]; [discriminate |].
  unfold create_after_check.
  destruct (prepare_request w s) as [r | e]; [| discriminate].
  destruct (add w r); cbn; now intros [= <-].
Qed.

Lemma non_empty_not_empty {A : Type} (l : list A) : non_empty l <> Some [].
Proof.
  destruct l; discriminate.
Qed.

(** X11. Every request that the push passes to [datasources.add] is
    addressed by the id of the settings, carries both icons as they
    resolve, always enables "trust URL regex for view activity" and
    "strip fragment in canonical URL", always disables "is entity
    datasource", and never carries an empty list of object definitions or
    of quick links (an empty list is sent as no value). *)
Theorem request_invariants
        (w : World) (s : DatasourceSettings) (force : bool)
        (request : CustomDatasourceConfig) :
  add_called_with (create_datasource w s force) = Some request ->
  name request = glean_datasource_id s
  /\ (exists icon dark,
         icon_url w s = Ok icon /\ icon_dark_url w s = Ok dark
         /\ icon_url_field request = Some icon
         /\ icon_dark_url_field request = Some dark)
  /\ trust_url_regex_for_view_activity request = Some true
  /\ strip_fragment_in_canonical_url request = Some true
  /\ is_entity_datasource request = Some false
  /\ object_definitions_field request <> Some []
  /\ quicklinks request <> Some [].
Proof.
  intros H. apply add_called_prepared in H. unfold prepare_request in H.
  do 6 invert_bind H. injection H as <-. cbn.
  split; [reflexivity |].
  split; [exists a3, a4; auto |].
  repeat split; apply non_empty_not_empty.
Qed.

Lemma request_invariants_witness :
  exists request,
    add_called_with (create_datasource offline_world example_settings false)
    = Some request
    /\ name request = "intranet"
    /\ trust_url_regex_for_view_activity request = Some true
    /\ is_entity_datasource request = Some false
    /\ object_definitions_field request <> Some [].
Proof.
  destruct (add_called_with
              (create_datasource offline_world example_settings false))
    as [request |] eqn:E; [| vm_compute in E; discriminate E].
  exists request.
  destruct (request_invariants offline_world example_settings false request E)
    as (H1 & _ & H3 & _ & H5 & H6 & _).
  repeat split; assumption.
Defined.

Lemma prepare_request_same (w1 w2 : World) (s : DatasourceSettings) :
  same_but_retrieval w1 w2 -> prepare_request w1 s = prepare_request w2 s.
Proof.
  destruct w1 as [f1 h1 l1 d1 r1 a1 c1], w2 as [f2 h2 l2 d2 r2 a2 c2].
  unfold same_but_retrieval. cbn.
  intros (-> & -> & -> & -> & ->). reflexivity.
Qed.

(** X12. With overwriting forced, the push does not depend on the
    existence check: in two worlds that differ only in what the retrieval
    returns (the record absent, found, or an error) and in the answers to
    the prompt, it shows no prompt, prepares the same request and returns
    the same result. Pushing twice in a row with [force] therefore sends
    the same record twice. *)
Theorem forced_push_ignores_existence
        (w1 w2 : World) (s : DatasourceSettings) :
  same_but_retrieval w1 w2 ->
  create_datasource w1 s true = create_datasource w2 s true
  /\ prompted (create_datasource w1 s true) = false.
Proof.
  intros Hsame.
  assert (E : forall w, create_datasource w s true
                        = create_after_check w s false).
  { intros w. unfold create_datasource, check_existence.
    destruct (retrieve_config w (glean_datasource_id s)) as [[r |] | e];
      reflexivity. }
  rewrite !E. unfold create_after_check.
  rewrite (prepare_request_same w1 w2 s Hsame).
  destruct Hsame as (_ & _ & _ & _ & Hadd). rewrite Hadd.
  split; [reflexivity |].
  destruct (prepare_request w2 s) as [r | e]; [| reflexivity].
  destruct (add w2 r); reflexivity.
Qed.

Lemma forced_push_ignores_existence_witness :
  create_datasource offline_world example_settings true
  = create_datasource found_world example_settings true
  /\ prompted (create_datasource offline_world example_settings true) = false.
Proof.
  apply (forced_push_ignores_existence offline_world found_world
           example_settings).
  repeat split.
Defined.

(** X13. The overwrite prompt is shown exactly when the retrieval
    returns a record and overwriting is not forced. If the answer is no,
    the push returns false without preparing or sending anything and
    without logging an error; if the answer is yes, it goes on as for an
    absent record. *)
Theorem overwrite_prompt_behaviour
        (w : World) (s : DatasourceSettings) (force : bool) :
  (prompted (create_datasource w s force) = true
   <-> (exists existing,
           retrieve_config w (glean_datasource_id s) = Ok (Some existing))
       /\ force = false)
  /\ (forall existing,
         retrieve_config w (glean_datasource_id s) = Ok (Some existing) ->
         force = false ->
         (Confirm_ask w overwrite_prompt = false ->
          create_datasource w s force
          = {| returned := false; prompted := true;
               add_called_with := None; logged_error := None |})
         /\ (Confirm_ask w overwrite_prompt = true ->
             create_datasource w s force = create_after_check w s true)).
Proof.
  split.
  - unfold create_datasource, check_existence.
    destruct (retrieve_config w (glean_datasource_id s)) as [[r |] | e];
      destruct force; cbn [negb].
    + unfold create_after_check.
      destruct (prepare_request w s) as [q | x]; [destruct (add w q) |];
        cbn; split; try discriminate; intros [_ ?]; discriminate.
    + destruct (Confirm_ask w overwrite_prompt); cbn [negb].
      * unfold create_after_check.
        destruct (prepare_request w s) as [q | x]; [destruct (add w q) |];
          cbn; (split; [intros _; split; [now exists r | reflexivity]
                       | reflexivity]).
      * cbn. split; [intros _; split; [now exists r | reflexivity]
                    | reflexivity].
    + unfold create_after_check.
      destruct (prepare_request w s) as [q | x]; [destruct (add w q) |];
        cbn; split; try discriminate; intros [[? ?] _]; discriminate.
    + unfold create_after_check.
      destruct (prepare_request w s) as [q | x]; [destruct (add w q) |];
        cbn; split; try discriminate; intros [[? ?] _]; discriminate.
    + unfold create_after_check.
      destruct (prepare_request w s) as [q | x]; [destruct (add w q) |];
        cbn; split; try discriminate; intros [[? ?] _]; discriminate.
    + unfold create_after_check.
      destruct (prepare_request w s) as [q | x]; [destruct (add w q) |];
        cbn; split; try discriminate; intros [[? ?] _]; discriminate.
  - intros existing Hr ->. unfold create_datasource, check_existence.
    rewrite Hr. cbn [negb]. split; intros ->; reflexivity.
Qed.

Lemma overwrite_prompt_behaviour_witness :
  create_datasource found_world example_settings false
  = {| returned := false; prompted := true;
       add_called_with := None; logged_error := None |}.
Proof.
  destruct (retrieve_config found_world
              (glean_datasource_id example_settings))
    as [[existing |] | e] eqn:R;
    [| vm_compute in R; discriminate R | vm_compute in R; discriminate R].
  apply (proj1 (proj2 (overwrite_prompt_behaviour
                         found_world example_settings false)
                 existing R eq_refl)).
  reflexivity.
Defined.

Lemma map_result_error {A B : Type} (f : A -> result B) (l : list A)
      (a : A) (e : exn) :
  In a l -> f a = Err e -> exists e', map_result f l = Err e'.
Proof.
  intros Hin Hf. induction l as [| x l IH]; [destruct Hin |].
  cbn [map_result]. destruct (f x) as [b | e0] eqn:Fx;
    [| eexists; reflexivity].
  cbn [bind]. destruct Hin as [-> | Hin]; [congruence |].
  destruct (IH Hin) as [e' ->]. eexists; reflexivity.
Qed.

(** X14. An object definition without a [name] makes the whole push
    fail: whatever the other definitions are, the request cannot be
    prepared, nothing is sent to the remote side and the push returns
    false. *)
Theorem nameless_object_fails_push
        (w : World) (s : DatasourceSettings) (force : bool)
        (objs : list json) (kv : list (string * json)) :
  Json.iter (object_definitions w s) = Ok objs ->
  In (JObj kv) objs ->
  Json.assoc "name" kv = None ->
  (exists e, prepare_request w s = Err e)
  /\ returned (create_datasource w s force) = false
  /\ add_called_with (create_datasource w s force) = None.
Proof.
  intros Hiter Hin Hname.
  assert (Hobj : exists e, prepare_object_definition (JObj kv) = Err e).
  { unfold prepare_object_definition, Json.get_default. cbn [Json.get bind].
    destruct (document_category_get _) as [c | e]; [| eexists; reflexivity].
    cbn [bind Json.getitem]. rewrite Hname. eexists; reflexivity. }
  destruct Hobj as [e He].
  destruct (map_result_error prepare_object_definition objs _ e Hin He)
    as [e' Hmap].
  assert (Hprep : prepare_request w s = Err e').
  { unfold prepare_request. rewrite Hiter. cbn [bind]. now rewrite Hmap. }
  split; [now exists e' |].
  unfold create_datasource.
  destruct (check_existence w s force) as [[|] p]; [split; reflexivity |].
  unfold create_after_check. rewrite Hprep. split; reflexivity.
Qed.

Lemma nameless_object_fails_push_witness :
  (exists e, prepare_request nameless_object_world example_settings = Err e)
  /\ returned (create_datasource nameless_object_world example_settings false)
     = false
  /\ add_called_with
       (create_datasource nameless_object_world example_settings false)
     = None.
Proof.
  apply (nameless_object_fails_push nameless_object_world example_settings
           false [JObj [("display_label", JStr "Ticket")]]
           [("display_label", JStr "Ticket")]);
    [reflexivity | now left | reflexivity].
Defined.

Lemma load_json_list_unusable (w : World) (path key : string) :
  unusable_file w (Pathlib.Path path) ->
  load_json_list w path key = JArr [].
Proof.
  unfold load_json_list, exists_, read_bytes.
  intros [H | (c & e & H & L)]; rewrite H; [reflexivity |].
  cbn [negb bind]. now rewrite L.
Qed.

(** X15. A missing or unparsable [object_types.json] or
    [quick_links.json] never fails the push: when both are unusable, the
    request is prepared as soon as the two icons resolve, and it carries
    neither object definitions nor quick links. *)
Theorem unusable_auxiliary_files
        (w : World) (s : DatasourceSettings) (icon dark : string) :
  unusable_file w "object_types.json" ->
  unusable_file w "quick_links.json" ->
  icon_url w s = Ok icon ->
  icon_dark_url w s = Ok dark ->
  exists request,
    prepare_request w s = Ok request
    /\ object_definitions_field request = None
    /\ quicklinks request = None
    /\ icon_url_field request = Some icon
    /\ icon_dark_url_field request = Some dark.
Proof.
  intros Ho Hq Hi Hd. unfold prepare_request, object_definitions,
    quick_links, load_object_definitions, load_quick_links.
  rewrite (load_json_list_unusable w "object_types.json" _ Ho).
  rewrite (load_json_list_unusable w "quick_links.json" _ Hq).
  cbn [Json.iter bind map_result]. rewrite Hi, Hd. cbn [bind].
  eexists. repeat split.
Qed.

Lemma unusable_auxiliary_files_witness :
  exists request,
    prepare_request offline_world example_settings = Ok request
    /\ object_definitions_field request = None
    /\ quicklinks request = None
    /\ icon_url_field request = Some "data:image/png;base64,iVBORw=="
    /\ icon_dark_url_field request = Some "data:image/png;base64,iVBORw==".
Proof.
  apply (unusable_auxiliary_files offline_world example_settings);
    solve [now left | reflexivity].
Defined.

End PushMore.

(** ** Pull: what the export writes *)

Section ExportMore.

Import Text.

Ltac settle r := destruct r eqn:?; [| cbn; discriminate].

(** The optional text fields of an assembled configuration are the
    assignments of the environment. *)
Lemma init_valid_icon_files (e : env) (s : DatasourceSettings) :
  DatasourceSettings_init e = Valid s ->
  glean_datasource_icon_filename_lightmode s
  = env_get "GLEAN_DATASOURCE_ICON_FILENAME_LIGHTMODE" e
  /\ glean_datasource_icon_filename_darkmode s
     = env_get "GLEAN_DATASOURCE_ICON_FILENAME_DARKMODE" e.
Proof.
  unfold DatasourceSettings_init.
  settle (required e "GLEAN_INDEXING_API_KEY").
  settle (required e "GLEAN_INSTANCE_NAME").
  settle (required e "GLEAN_DATASOURCE_DISPLAY_NAME"). cbn [bind].
  settle (field_display_name a1).
  settle (required e "GLEAN_DATASOURCE_ID"). cbn [bind].
  settle (field_datasource_id a3).
  settle (field_category (env_get "GLEAN_DATASOURCE_CATEGORY" e)).
  settle (required e "GLEAN_DATASOURCE_HOME_URL"). cbn [bind].
  settle (field_home_url a6).
  settle
    (field_bool (env_get "GLEAN_DATASOURCE_USER_REFERENCED_BY_EMAIL" e) true).
  settle (field_bool (env_get "GLEAN_DATASOURCE_IS_TEST_MODE" e) true).
  cbn. intros [= <-]. cbn. split; reflexivity.
Qed.

(** Saving an icon either changes nothing or writes one file, named
    after the stem with the extension [png] or [svg]. *)
Lemma save_icon_frame
      (f : filesystem) (url : option string) (dir stem : string) :
  Pathlib.rsplit_at Pathlib.slash stem = ("", stem) ->
  Pathlib.rsplit_at Pathlib.dot stem = ("", stem) ->
  is_empty stem = false ->
  save_icon f url dir stem = (None, f)
  \/ exists ext c,
       (ext = "png" \/ ext = "svg")
       /\ save_icon f url dir stem
          = (Some (stem ++ "." ++ ext),
             write_bytes f (Pathlib.join dir (stem ++ "." ++ ext)) c).
Proof.
  intros Hslash Hdot Hne. unfold save_icon.
  destruct (truthy_opt url); [| now left].
  unfold save_data_url_to_file, raise.
  destruct (negb (truthy (value url) && startswith "data:" (value url)));
    [now left |].
  destruct (match_data_url (value url)) as [[mime payload] |]; [| now left].
  destruct (extension_map mime) as [ext |] eqn:M; [| now left].
  destruct (Base64.b64decode payload) as [c | e]; [| now left].
  cbn [bind].
  rewrite (with_suffix_join dir stem ("." ++ ext) Hslash Hdot Hne).
  cbn [bind]. right. exists ext, c. split; [| reflexivity].
  destruct (extension_map_values _ _ M) as [[_ ->] | [_ ->]]; tauto.
Qed.

Lemma write_bytes_frame
      (f : filesystem) (path p : string) (c : list Byte.byte) :
  p <> path -> write_bytes f path c p = f p.
Proof.
  intros H. unfold write_bytes.
  destruct (String.eqb_spec p path); [contradiction | reflexivity].
Qed.

Lemma save_icon_other
      (f : filesystem) (url : option string) (dir stem p : string) :
  Pathlib.rsplit_at Pathlib.slash stem = ("", stem) ->
  Pathlib.rsplit_at Pathlib.dot stem = ("", stem) ->
  is_empty stem = false ->
  p <> Pathlib.join dir (stem ++ ".png") ->
  p <> Pathlib.join dir (stem ++ ".svg") ->
  snd (save_icon f url dir stem) p = f p.
Proof.
  intros Hslash Hdot Hne Hpng Hsvg.
  destruct (save_icon_frame f url dir stem Hslash Hdot Hne)
    as [-> | (ext & c & [-> | ->] & ->)]; cbn [snd];
    [reflexivity | |]; now apply write_bytes_frame.
Qed.

Lemma join_neq (dir a b : string) :
  a <> b -> Pathlib.join dir a <> Pathlib.join dir b.
Proof.
  intros Hab E. apply Hab, String.eqb_eq.
  rewrite <- (join_eqb dir a b). now apply String.eqb_eq.
Qed.

(** The file system after the export, at a path that is none of the
    four icon files and at which no JSON file is written. *)
Lemma save_config_fs_at
      (w : World) (settings : DatasourceSettings) (id : string)
      (config : CustomDatasourceConfig) (p : string) :
  let dir := Pathlib.Path (id ++ "-config") in
  p <> Pathlib.join dir "icon-lightmode.png" ->
  p <> Pathlib.join dir "icon-lightmode.svg" ->
  p <> Pathlib.join dir "icon-darkmode.png" ->
  p <> Pathlib.join dir "icon-darkmode.svg" ->
  (p = Pathlib.join dir "object_types.json" ->
   truthy_list (object_definitions_field config) = false) ->
  (p = Pathlib.join dir "quick_links.json" ->
   truthy_list (quicklinks config) = false) ->
  exported_fs (save_config w settings id config) p = fs w p.
Proof.
  intros dir L1 L2 D1 D2 Ho Hq. unfold save_config. fold dir.
  pose proof (save_icon_other (fs w) (icon_url_field config) dir
                "icon-lightmode" p eq_refl eq_refl eq_refl L1 L2) as F1.
  destruct (save_icon (fs w) (icon_url_field config) dir "icon-lightmode")
    as [n1 f1]. cbn [snd] in F1.
  pose proof (save_icon_other f1 (icon_dark_url_field config) dir
                "icon-darkmode" p eq_refl eq_refl eq_refl D1 D2) as F2.
  destruct (save_icon f1 (icon_dark_url_field config) dir "icon-darkmode")
    as [n2 f2]. cbn [snd] in F2.
  cbn [exported_fs]. rewrite <- F1, <- F2.
  assert (F3 : (if truthy_list (object_definitions_field config)
                then write_bytes f2 (Pathlib.join dir "object_types.json")
                       (json_dump w
                          (JObj [("objectTypes",
                                  JArr (map export_object
                                          (items (object_definitions_field
                                                    config))))]))
                else f2) p = f2 p).
  { destruct (truthy_list (object_definitions_field config)) eqn:T;
      [| reflexivity].
    apply write_bytes_frame. intros E. specialize (Ho E). discriminate. }
  rewrite <- F3.
  destruct (truthy_list (quicklinks config)) eqn:T; [| reflexivity].
  destruct (export_quicklinks (items (quicklinks config))); [reflexivity |].
  apply write_bytes_frame. intros E. specialize (Hq E). discriminate.
Qed.

(** X16. The export writes nothing but its own files: apart from the env
    file it touches at most the two icon files (with extension [png] or
    [svg]), [object_types.json] and [quick_links.json] of the export
    directory, and every other path of the file system is left as it was.
    [object_types.json] is written only for a record with at least one
    object definition, [quick_links.json] only for a record with at least
    one quick link; the env file is placed in the same directory, named
    after the id. *)
Theorem export_writes_only_its_files
        (w : World) (settings : DatasourceSettings) (id : string)
        (config : CustomDatasourceConfig) :
  let dir := Pathlib.Path (id ++ "-config") in
  let files := save_config w settings id config in
  (forall p, ~ In p (export_paths dir) -> exported_fs files p = fs w p)
  /\ (truthy_list (object_definitions_field config) = false ->
      exported_fs files (Pathlib.join dir "object_types.json")
      = fs w (Pathlib.join dir "object_types.json"))
  /\ (truthy_list (quicklinks config) = false ->
      exported_fs files (Pathlib.join dir "quick_links.json")
      = fs w (Pathlib.join dir "quick_links.json"))
  /\ env_path files = Pathlib.join dir (id ++ ".env").
Proof.
  intros dir files. split; [| split; [| split]].
  - intros p Hp. unfold export_paths in Hp. cbn [map In] in Hp.
    apply save_config_fs_at;
      intros E; exfalso; apply Hp; rewrite E;
      repeat first [left; reflexivity | right].
  - intros T. apply save_config_fs_at;
      try (apply join_neq; discriminate); [intros _; exact T |].
    intros E. apply join_neq in E; [destruct E | discriminate].
  - intros T. apply save_config_fs_at;
      try (apply join_neq; discriminate); [| intros _; exact T].
    intros E. apply join_neq in E; [destruct E | discriminate].
  - unfold files, save_config. fold dir.
    destruct (save_icon (fs w) (icon_url_field config) dir "icon-lightmode")
      as [n1 f1].
    destruct (save_icon f1 (icon_dark_url_field config) dir "icon-darkmode")
      as [n2 f2].
    reflexivity.
Qed.

Lemma export_writes_only_its_files_witness :
  exported_fs (save_config offline_world example_settings "intranet"
                 iconless_record)
    (Pathlib.join (Pathlib.Path ("intranet" ++ "-config")) "object_types.json")
  = fs offline_world
      (Pathlib.join (Pathlib.Path ("intranet" ++ "-config"))
         "object_types.json").
Proof.
  apply (proj1 (proj2 (export_writes_only_its_files offline_world
                         example_settings "intranet" iconless_record))).
  reflexivity.
Defined.

(** X17. For a remote record without a light icon the export saves no
    light icon file, yet its env file names [icon-lightmode.png]. Unless
    that file was already in the export directory, a configuration
    re-assembled from the export cannot resolve its light icon: the error
    says that this file is not found. *)
Theorem export_without_light_icon
        (w : World) (settings : DatasourceSettings) (id : string)
        (config : CustomDatasourceConfig) (s' : DatasourceSettings) :
  let dir := Pathlib.Path (id ++ "-config") in
  let files := save_config w settings id config in
  truthy_opt (icon_url_field config) = false ->
  fs w (Pathlib.join dir "icon-lightmode.png") = None ->
  DatasourceSettings_init (env_file files) = Valid s' ->
  env_get "GLEAN_DATASOURCE_ICON_FILENAME_LIGHTMODE" (env_file files)
  = Some "icon-lightmode.png"
  /\ exported_fs files (Pathlib.join dir "icon-lightmode.png") = None
  /\ icon_url (with_fs w (chdir dir (exported_fs files))) s'
     = raise ValueError "Icon file not found: icon-lightmode.png".
Proof.
  intros dir files Hnone Habsent Hinit.
  assert (Henv : env_get "GLEAN_DATASOURCE_ICON_FILENAME_LIGHTMODE"
                   (env_file files) = Some "icon-lightmode.png").
  { unfold files, save_config, save_icon. fold dir. rewrite Hnone.
    destruct (if truthy_opt (icon_dark_url_field config) then _ else _)
      as [n2 f2].
    reflexivity. }
  assert (Hfs : exported_fs files (Pathlib.join dir "icon-lightmode.png")
                = None).
  { rewrite <- Habsent. unfold files, save_config, save_icon at 1. fold dir.
    rewrite Hnone.
    pose proof (save_icon_other (fs w) (icon_dark_url_field config) dir
                  "icon-darkmode" (Pathlib.join dir "icon-lightmode.png")
                  eq_refl eq_refl eq_refl) as F2.
    destruct (save_icon (fs w) (icon_dark_url_field config) dir
                "icon-darkmode") as [n2 f2].
    cbn [snd exported_fs] in *.
    rewrite <- F2 by (apply join_neq; discriminate).
    destruct (truthy_list (object_definitions_field config));
      destruct (if truthy_list (quicklinks config)
                then export_quicklinks (items (quicklinks config))
                else []);
      rewrite ?write_bytes_join_other by reflexivity; reflexivity. }
  split; [exact Henv |]. split; [exact Hfs |].
  destruct (init_valid_icon_files _ _ Hinit) as [Hl _].
  unfold icon_url. rewrite Hl, Henv.
  cbn [truthy_opt truthy is_empty negb value fs with_fs].
  change (Pathlib.Path "icon-lightmode.png") with "icon-lightmode.png".
  unfold exists_, chdir. now rewrite Hfs.
Qed.

Lemma export_without_light_icon_witness :
  match DatasourceSettings_init
          (env_file (save_config jpeg_world example_settings "intranet"
                       iconless_record)) with
  | Valid s' =>
      icon_url
        (with_fs jpeg_world
           (chdir (Pathlib.Path ("intranet" ++ "-config"))
              (exported_fs (save_config jpeg_world example_settings
                              "intranet" iconless_record)))) s'
      = raise ValueError "Icon file not found: icon-lightmode.png"
  | Invalid _ => False
  end.
Proof.
  destruct (DatasourceSettings_init
              (env_file (save_config jpeg_world example_settings "intranet"
                           iconless_record))) as [s' | errors] eqn:H.
  - apply (export_without_light_icon jpeg_world example_settings "intranet"
             iconless_record s'); [reflexivity | reflexivity | exact H].
  - vm_compute in H. discriminate H.
Defined.

End ExportMore.

(** ** Categories *)

Section CategoryFacts.

Lemma category_of_value_inv (v : string) (c : DatasourceCategory) :
  category_of_value v = Some c -> v = category_value c.
Proof.
  unfold category_of_value. intros F. apply find_some in F as [_ F].
  symmetry. now apply String.eqb_eq.
Qed.

(** X18. The fifteen category values name the fifteen categories one to
    one. The assembly accepts each of them, the three discouraged ones
    ([PEOPLE], [EXTERNAL_SHORTCUT], [UNCATEGORIZED]) included, and refuses
    every other text. On the push path the category of the settings is
    always found in the mapping table, so its [KNOWLEDGE_HUB] default is
    never used for it; for the [doc_category] of an object definition a
    text that names no category is replaced by [KNOWLEDGE_HUB] without an
    error. *)
Theorem category_mapping (v : string) (c : DatasourceCategory) :
  (category_of_value v = Some c <-> v = category_value c)
  /\ field_category (Some (category_value c)) = Ok c
  /\ ((forall c', v <> category_value c') ->
      (exists e, field_category (Some v) = Err e)
      /\ document_category_get (JStr v) = Ok (DocCategoryOf KNOWLEDGE_HUB))
  /\ DATASOURCE_CATEGORY_MAP (category_value c) = Some (GleanCategory c)
  /\ document_category_get (JStr (category_value c)) = Ok (DocCategoryOf c)
  /\ glean_category_value (GleanCategory c) = category_value c.
Proof.
  split; [| split; [| split; [| split; [| split]]]].
  - split; [apply category_of_value_inv |].
    intros ->. destruct c; reflexivity.
  - destruct c; reflexivity.
  - intros Hv.
    assert (N : category_of_value v = None).
    { destruct (category_of_value v) as [c' |] eqn:F; [| reflexivity].
      elim (Hv c'). now apply category_of_value_inv. }
    unfold field_category, document_category_get, DOCUMENT_CATEGORY_MAP.
    rewrite N. split; [eexists; reflexivity | reflexivity].
  - destruct c; reflexivity.
  - destruct c; reflexivity.
  - reflexivity.
Qed.

Lemma category_mapping_witness :
  (exists e, field_category (Some "WIKI") = Err e)
  /\ document_category_get (JStr "WIKI") = Ok (DocCategoryOf KNOWLEDGE_HUB).
Proof.
  apply (proj1 (proj2 (proj2 (category_mapping "WIKI" PEOPLE)))).
  intros c'. destruct c'; discriminate.
Defined.

End CategoryFacts.

(** ** Object definitions: from the export back to the push *)

Section ObjectRoundTrip.

Import Text.


























Lemma truthy_list_items {A : Type} (o : option (list A)) :
  truthy_list o = true -> Some (items o) = o.
Proof.
  destruct o as [[| a l] |]; try discriminate. reflexivity.
Qed.






End ObjectRoundTrip.
